(** * ofxstatement-seb: the SEB spreadsheet statement parser

    A shallow embedding of [src/ofxstatement/plugins/seb.py] together with
    the part of the Python runtime it calls ([re.match], [datetime.strptime],
    the [locale] module, the worksheet rows handed out by openpyxl), and the
    properties of the parser stated in the specification. *)

From Stdlib Require Import ZArith NArith Lia Ascii String.
From stdpp Require Import base option list strings gmap.

Local Open Scope Z_scope.
Local Open Scope list_scope.

(** ** Python text

    A Python [str] is a sequence of Unicode code points. *)

Definition char := N.
Definition str := list char.

Definition chr (a : ascii) : char := N_of_ascii a.

(** String literals of this file are UTF-8 byte strings; [py] decodes one
    into the code points of the Python literal spelled the same way. *)
Definition cont_bits (b : N) : N := N.land b 63.

Fixpoint utf8_decode (bs : list N) : str :=
  match bs with
  | [] => []
  | b0 :: t0 =>
      if (b0 <? 128)%N then b0 :: utf8_decode t0
      else match t0 with
      | [] => [b0]
      | b1 :: t1 =>
          if (b0 <? 224)%N then
            (N.land b0 31 * 64 + cont_bits b1)%N :: utf8_decode t1
          else match t1 with
          | [] => [b0; b1]
          | b2 :: t2 =>
              if (b0 <? 240)%N then
                (N.land b0 15 * 4096 + cont_bits b1 * 64 + cont_bits b2)%N
                  :: utf8_decode t2
              else match t2 with
              | [] => [b0; b1; b2]
              | b3 :: t3 =>
                  (N.land b0 7 * 262144 + cont_bits b1 * 4096
                   + cont_bits b2 * 64 + cont_bits b3)%N :: utf8_decode t3
              end
          end
      end
  end.

Definition py (s : string) : str :=
  utf8_decode (map N_of_ascii (list_ascii_of_string s)).

Definition NL : char := 10%N.

(** Character classes of the [re] module on [str] patterns.  The ASCII
    range is fixed here; what a code point above it is (letter, digit,
    white space) comes from the Unicode character database of the
    interpreter, which is taken as given. *)
Class UnicodeDB := {
  uni_alnum : char -> bool;
  uni_space : char -> bool;
  uni_decimal : char -> option Z
}.

Definition in_range (lo hi c : N) : bool := ((lo <=? c) && (c <=? hi))%N.

Definition ascii_digit (c : char) : bool := in_range 48 57 c.

Definition ascii_alnum (c : char) : bool :=
  ascii_digit c || in_range 65 90 c || in_range 97 122 c.

(** [str.isspace] on ASCII: TAB..CR, FS..US and the blank. *)
Definition ascii_space (c : char) : bool :=
  in_range 9 13 c || in_range 28 32 c.

Section CharClasses.
Context `{UnicodeDB}.

(** [\w] *)
Definition is_word (c : char) : bool :=
  if (c <? 128)%N then ascii_alnum c || (c =? 95)%N else uni_alnum c.

(** [\s] *)
Definition is_space (c : char) : bool :=
  if (c <? 128)%N then ascii_space c else uni_space c.

(** The value [int] gives a decimal digit, when [c] is one. *)
Definition decimal_value (c : char) : option Z :=
  if (c <? 128)%N
  then (if ascii_digit c then Some (Z.of_N c - 48) else None)
  else uni_decimal c.

(** [\d] *)
Definition is_digit (c : char) : bool := bool_decide (is_Some (decimal_value c)).

(** [[0-9\s]] *)
Definition is_digit_or_space (c : char) : bool := ascii_digit c || is_space c.
End CharClasses.

(** [.] without DOTALL *)
Definition is_dot (c : char) : bool := negb (c =? NL)%N.

(** ** Exceptions and results *)

Inductive exn :=
| AssertionError
| ValueError
| TypeError
| IndexError
| LocaleError.

Inductive result (A : Type) :=
| Ok (a : A)
| Raise (e : exn).
Arguments Ok {A} a.
Arguments Raise {A} e.

#[global] Instance result_ret : MRet result := fun A a => Ok a.

#[global] Instance result_bind : MBind result :=
  fun A B f m =>
    match m with
    | Ok a => f a
    | Raise e => Raise e
    end.

(** [assert b] *)
Definition py_assert (b : bool) : result unit :=
  if b then Ok tt else Raise AssertionError.

(** [l[i]] on a list, for a non-negative index *)
Definition index {A} (l : list A) (i : nat) : result A :=
  match l !! i with
  | Some a => Ok a
  | None => Raise IndexError
  end.

(** ** Python values held by cells and settings *)

Record datetime := mkdate { year : Z; month : Z; day : Z }.

Inductive PyVal :=
| PNone
| PStr (s : str)
| PBool (b : bool)
| PInt (z : Z)
| PFloat (bits : N)       (* a binary64 by its bit pattern; never inspected *)
| PDate (d : datetime).

(** ** Regular expressions: the fragment the parser's patterns use

    A backtracking matcher in continuation-passing style, with the
    priorities of [re]: repetition is greedy, alternatives are tried left to
    right, and the first way to match the whole pattern wins. *)

Inductive regex :=
| Lit (c : char)
| Class (p : char -> bool)
| Star (p : char -> bool)
| Plus (p : char -> bool)
| Cat (r1 r2 : regex)
| Alt (r1 r2 : regex)
| Group (n : nat) (r : regex)
| Bol
| Eol.

Definition captures := list (nat * str).

Fixpoint capture (g : captures) (n : nat) : option str :=
  match g with
  | [] => None
  | (m, s) :: g' => if (m =? n)%nat then Some s else capture g' n
  end.

Section Matcher.
Context {A : Type}.

(** A continuation takes the position, what is left of the subject and
    the groups captured so far. *)
Definition cont := nat -> str -> captures -> option A.

Definition one (p : char -> bool) (k : cont) : cont :=
  fun i s g =>
    match s with
    | c :: s' => if p c then k (S i) s' g else None
    | [] => None
    end.

Fixpoint greedy (p : char -> bool) (k : cont) (i : nat) (s : str)
    (g : captures) : option A :=
  match s with
  | c :: s' =>
      if p c then
        match greedy p k (S i) s' g with
        | Some a => Some a
        | None => k i s g
        end
      else k i s g
  | [] => k i s g
  end.

Fixpoint run (r : regex) (k : cont) : cont :=
  match r with
  | Lit c => one (N.eqb c) k
  | Class p => one p k
  | Star p => greedy p k
  | Plus p => one p (greedy p k)
  | Cat r1 r2 => run r1 (run r2 k)
  | Alt r1 r2 =>
      fun i s g =>
        match run r1 k i s g with
        | Some a => Some a
        | None => run r2 k i s g
        end
  | Group n r =>
      fun i s g => run r (fun j s' g' => k j s' ((n, take (j - i) s) :: g')) i s g
  | Bol => fun i s g => if (i =? 0)%nat then k i s g else None
  | Eol =>
      fun i s g =>
        match s with
        | [] => k i s g
        | [c] => if (c =? NL)%N then k i s g else None
        | _ => None
        end
  end.
End Matcher.

(** A match object: where the match ends and what the groups hold. *)
Record Match := { m_end : nat; m_groups : captures }.

(** [re.match(pattern, string)] on a [str] subject *)
Definition re_match (r : regex) (s : str) : option Match :=
  run r (fun i _ g => Some {| m_end := i; m_groups := g |}) 0%nat s [].

(** [re.match(pattern, v)] on any value: only text can be searched. *)
Definition re_match_val (r : regex) (v : PyVal) : result (option Match) :=
  match v with
  | PStr s => Ok (re_match r s)
  | _ => Raise TypeError
  end.

(** [m[n]], [m.group(n)]: [None] for a group that took no part. *)
Definition group (m : Match) (n : nat) : PyVal :=
  match capture (m_groups m) n with
  | Some s => PStr s
  | None => PNone
  end.

Fixpoint cats (rs : list regex) : regex :=
  match rs with
  | [] => Star (fun _ => false)
  | [r] => r
  | r :: rs' => Cat r (cats rs')
  end.

Section Patterns.
Context `{UnicodeDB}.

(** The account pattern "^\w+\s\(([0-9\s]+)\)$" *)
Definition account_re : regex :=
  cats [Bol; Plus is_word; Class is_space; Lit (chr "(");
        Group 1 (Plus is_digit_or_space); Lit (chr ")"); Eol].

Definition d2 : regex := Cat (Class ascii_digit) (Class ascii_digit).

(** The memo pattern: group 1 is [.*], then a slash, group 2 is
    "[0-9]{2}-[0-9]{2}-[0-9]{2}", then [$]. *)
Definition memo_re : regex :=
  cats [Group 1 (Star is_dot); Lit (chr "/");
        Group 2 (cats [d2; Lit (chr "-"); d2; Lit (chr "-"); d2]); Eol].
End Patterns.


(** ** [datetime.strptime]

    The interpreter turns a format into a regular expression, one named
    group per directive, matches it at the start of the text, refuses text
    that is left over, converts the groups with [int] and builds the date,
    which checks the calendar. *)

Definition is_leap (y : Z) : bool :=
  (y mod 4 =? 0) && (negb (y mod 100 =? 0) || (y mod 400 =? 0)).

Definition days_in_month (y m : Z) : Z :=
  if m =? 2 then (if is_leap y then 29 else 28)
  else if (m =? 4) || (m =? 6) || (m =? 9) || (m =? 11) then 30
  else 31.

(** [datetime(y, m, d)] *)
Definition make_date (y m d : Z) : result datetime :=
  if (1 <=? y) && (y <=? 9999) && (1 <=? m) && (m <=? 12)
     && (1 <=? d) && (d <=? days_in_month y m)
  then Ok (mkdate y m d)
  else Raise ValueError.

(** The two formats of the parser: "%Y-%m-%d" and "%y-%m-%d". *)
Inductive time_format := Ymd_format | ymd_format.

Section Strptime.
Context `{UnicodeDB}.

Definition between (lo hi : ascii) : regex := Class (in_range (chr lo) (chr hi)).

(** %Y is "\d\d\d\d" and %y is "\d\d" *)
Definition re_Y : regex :=
  cats [Class is_digit; Class is_digit; Class is_digit; Class is_digit].
Definition re_y : regex := cats [Class is_digit; Class is_digit].

(** %m is "1[0-2]|0[1-9]|[1-9]" *)
Definition re_m : regex :=
  Alt (Cat (Lit (chr "1")) (between "0" "2"))
 (Alt (Cat (Lit (chr "0")) (between "1" "9"))
      (between "1" "9")).

(** %d is "3[0-1]|[1-2]\d|0[1-9]|[1-9]| [1-9]" *)
Definition re_d : regex :=
  Alt (Cat (Lit (chr "3")) (between "0" "1"))
 (Alt (Cat (between "1" "2") (Class is_digit))
 (Alt (Cat (Lit (chr "0")) (between "1" "9"))
 (Alt (between "1" "9")
      (Cat (Lit (chr " ")) (between "1" "9"))))).

Definition format_regex (f : time_format) : regex :=
  cats [Group 1 match f with Ymd_format => re_Y | ymd_format => re_y end;
        Lit (chr "-"); Group 2 re_m; Lit (chr "-"); Group 3 re_d].

Fixpoint digits_value (acc : Z) (s : str) : option Z :=
  match s with
  | [] => Some acc
  | c :: s' =>
      match decimal_value c with
      | Some v => digits_value (10 * acc + v) s'
      | None => None
      end
  end.

(** [int(s)] on the text of a group: blanks around the digits are dropped *)
Definition py_int (s : str) : result Z :=
  match s with
  | [] => Raise ValueError
  | c :: s' =>
      match (if (c =? chr " ")%N then digits_value 0 s' else digits_value 0 s) with
      | Some z => Ok z
      | None => Raise ValueError
      end
  end.

Definition group_int (m : Match) (n : nat) : result Z :=
  match group m n with
  | PStr s => py_int s
  | _ => Raise TypeError
  end.

(** The century of a two-digit year *)
Definition full_year (f : time_format) (y : Z) : Z :=
  match f with
  | Ymd_format => y
  | ymd_format => if y <=? 68 then y + 2000 else y + 1900
  end.

(** [datetime.strptime(data, format)] *)
Definition strptime (data : PyVal) (f : time_format) : result datetime :=
  match data with
  | PStr s =>
      match re_match (format_regex f) s with
      | None => Raise ValueError
      | Some found =>
          if (length s =? m_end found)%nat then
            y ← group_int found 1;
            m ← group_int found 2;
            d ← group_int found 3;
            make_date (full_year f y) m d
          else Raise ValueError
      end
  | _ => Raise TypeError
  end.
End Strptime.

(** ** The [locale] module

    The locale of the process is state shared by every caller; the calls
    below read or replace it and may raise.  What a locale name means, which
    names the host has installed and how a decimal string is read under a
    locale belong to the C library: they are the fields of [LocaleLib]. *)

Inductive locale_arg (T : Type) :=
| LocVal (v : PyVal)     (* a name, or [None] to only query *)
| LocSaved (t : T).      (* what [getlocale] returned earlier *)
Arguments LocVal {T} v.
Arguments LocSaved {T} t.

Class LocaleLib := {
  locale_state : Type;
  category : Type;
  LC_NUMERIC : category;
  locale_id : Type;
  float : Type;
  getlocale : category -> locale_state -> result locale_id;
  setlocale : category -> locale_arg locale_id -> locale_state
              -> result PyVal * locale_state;
  locale_atof : str -> locale_state -> result float
}.

(** Computations over a shared state [S] that may raise: the state a
    raising computation leaves behind is kept. *)
Definition Eff (S A : Type) : Type := S -> result A * S.

#[global] Instance Eff_ret {S} : MRet (Eff S) := fun A a s => (Ok a, s).

#[global] Instance Eff_bind {S} : MBind (Eff S) :=
  fun A B f m s =>
    match m s with
    | (Ok a, s') => f a s'
    | (Raise e, s') => (Raise e, s')
    end.

(** A computation that reads the state and changes nothing *)
Definition reading {S A} (f : S -> result A) : Eff S A := fun s => (f s, s).

(** [try: body finally: cleanup]: the cleanup runs on both exits of the
    body, and an exception of the cleanup replaces the body's outcome. *)
Definition try_finally {S A B} (body : Eff S A) (cleanup : Eff S B) : Eff S A :=
  fun s =>
    let (r, s1) := body s in
    match cleanup s1 with
    | (Ok _, s2) => (r, s2)
    | (Raise e, s2) => (Raise e, s2)
    end.

Section Locale.
Context `{LocaleLib}.

(** The context manager, applied to the body of its [with] block: the
    body receives what the generator yields. *)
Definition scoped_setlocale {A} (cat : category) (loc : PyVal)
    (body : PyVal -> Eff locale_state A) : Eff locale_state A :=
  orig ← reading (getlocale cat);
  try_finally
    (v ← setlocale cat (LocVal loc); body v)
    (setlocale cat (LocSaved orig)).

Definition atof (string : str) (loc : PyVal) : Eff locale_state float :=
  scoped_setlocale LC_NUMERIC loc (fun _ => reading (locale_atof string)).
End Locale.

(** ** Worksheets, statements and statement lines *)

Record Cell := { value : PyVal; style_id : N }.

(** What [sheet.iter_rows()] goes through, from the first row on *)
Abbreviation Worksheet := (list (list Cell)).

(** [[c.value for c in row]] *)
Definition values (row : list Cell) : list PyVal := value <$> row.

Record Statement := {
  account_id : PyVal;
  bank_id : str;
  currency : str
}.

Record StatementLine := {
  id : option str;
  date : option datetime;
  memo : PyVal;
  amount : PyVal;
  refnum : PyVal;
  date_user : option datetime
}.

(** [StatementLine()] *)
Definition new_line : StatementLine :=
  {| id := None; date := None; memo := PNone; amount := PNone;
     refnum := PNone; date_user := None |}.

Definition set_id (v : str) (l : StatementLine) : StatementLine :=
  {| id := Some v; date := date l; memo := memo l; amount := amount l;
     refnum := refnum l; date_user := date_user l |}.
Definition set_date (v : datetime) (l : StatementLine) : StatementLine :=
  {| id := id l; date := Some v; memo := memo l; amount := amount l;
     refnum := refnum l; date_user := date_user l |}.
Definition set_memo (v : PyVal) (l : StatementLine) : StatementLine :=
  {| id := id l; date := date l; memo := v; amount := amount l;
     refnum := refnum l; date_user := date_user l |}.
Definition set_amount (v : PyVal) (l : StatementLine) : StatementLine :=
  {| id := id l; date := date l; memo := memo l; amount := v;
     refnum := refnum l; date_user := date_user l |}.
Definition set_refnum (v : PyVal) (l : StatementLine) : StatementLine :=
  {| id := id l; date := date l; memo := memo l; amount := amount l;
     refnum := v; date_user := date_user l |}.
Definition set_date_user (v : datetime) (l : StatementLine) : StatementLine :=
  {| id := id l; date := date l; memo := memo l; amount := amount l;
     refnum := refnum l; date_user := Some v |}.

(** [ofxstatement.statement.generate_transaction_id]: a digest of the line,
    computed by the statement library.  The library encodes the memo and
    the amount as UTF-8 on the way and raises on text that has no encoding
    (a lone surrogate); lines with such text are outside this model. *)
Class OfxLib := {
  generate_transaction_id : StatementLine -> str
}.

(** Comparing a literal of the program with a value: [None == v] and
    ['text' == v]. *)
Inductive literal := LNone | LStr (s : str).

Definition lit_eq (l : literal) (v : PyVal) : bool :=
  match l, v with
  | LNone, PNone => true
  | LStr s, PStr t => bool_decide (s = t)
  | _, _ => false
  end.

(** [expected == actual] on lists: same length, equal item by item *)
Fixpoint lits_eq (expected : list literal) (actual : list PyVal) : bool :=
  match expected, actual with
  | [], [] => true
  | l :: expected', v :: actual' => lit_eq l v && lits_eq expected' actual'
  | _, _ => false
  end.

(** [l[-2:]] *)
Definition last_two {A} (l : list A) : list A := drop (length l - 2) l.

(** The truth value of an object in a condition *)
Definition truthy (v : PyVal) : bool :=
  match v with
  | PNone => false
  | PStr s => negb (bool_decide (s = []))
  | PBool b => b
  | PInt z => negb (z =? 0)
  | PFloat bits => negb ((bits =? 0)%N || (bits =? 2 ^ 63)%N)
  | PDate _ => true
  end.

Definition header_labels : list literal :=
  [LStr (py "Bokföringsdatum"); LStr (py "Valutadatum");
   LStr (py "Verifikationsnummer"); LStr (py "Text");
   LStr (py "Belopp"); LStr (py "Saldo")].

(** ** The parser *)

Record SebStatementParser := {
  locale : PyVal;
  brief : PyVal;
  workbook : Worksheet;
  statement : Statement
}.

(** Class attributes of [SebStatementParser] *)
Definition date_format : time_format := Ymd_format.
Definition parser_bank_id : str := py "SEB".
Definition currency_id : str := py "SEK".

Section Parser.
Context `{UnicodeDB} `{OfxLib}.

(** [StatementParser.parse_datetime] of the statement library *)
Definition parse_datetime (v : PyVal) : result datetime :=
  strptime v date_format.

Definition _validate (sheet : Worksheet) : result unit :=
  let rows := take 8 sheet in
  py_assert (length rows =? 8)%nat;;
  mapM (fun row : list Cell => py_assert (length row =? 6)%nat) rows;;
  let rows := values <$> rows in
  summary_account_row ← index rows 4;
  account_id ← index summary_account_row 0;
  m ← re_match_val account_re account_id;
  py_assert (bool_decide (is_Some m));;
  py_assert (lits_eq [LNone; LNone] (last_two summary_account_row));;
  empty_row ← index rows 5;
  py_assert (lits_eq [LNone; LNone; LNone; LNone; LNone; LNone] empty_row);;
  statement_header_row ← index rows 7;
  py_assert (lits_eq header_labels statement_header_row);;
  Ok tt.

(** [validate] turns a failed assertion into a [ValueError]; any other
    exception passes through. *)
Definition validate (sheet : Worksheet) : result unit :=
  match _validate sheet with
  | Raise AssertionError => Raise ValueError
  | r => r
  end.

Definition parse_statement (sheet : Worksheet) : result Statement :=
  let rows := take 8 sheet in
  let rows := values <$> rows in
  py_assert (length rows =? 8)%nat;;
  account_row ← index rows 4;
  cell ← index account_row 0;
  m ← re_match_val account_re cell;
  match m with
  | Some account_id =>
      Ok {| account_id := group account_id 1;
            bank_id := parser_bank_id;
            currency := currency_id |}
  | None => Raise TypeError
  end.

(** The rows the generator yields, in order *)
Definition split_records (sheet : Worksheet) : list (list PyVal) :=
  values <$> drop 8 sheet.

Definition parse_record (brief : PyVal) (row : list PyVal) : result StatementLine :=
  let row := take 5 row in
  let stmt_line := new_line in
  v0 ← index row 0;
  d ← parse_datetime v0;
  let stmt_line := set_date d stmt_line in
  v1 ← index row 1;
  parse_datetime v1;;
  v2 ← index row 2;
  let stmt_line := set_refnum v2 stmt_line in
  v3 ← index row 3;
  let stmt_line := set_memo v3 stmt_line in
  v4 ← index row 4;
  let stmt_line := set_amount v4 stmt_line in
  m ← re_match_val memo_re (memo stmt_line);
  stmt_line ←
    match m with
    | Some m =>
        let card_memo := group m 1 in
        let card_date := group m 2 in
        let stmt_line :=
          if truthy brief then set_memo card_memo stmt_line else stmt_line in
        du ← strptime card_date ymd_format;
        Ok (set_date_user du stmt_line)
    | None => Ok stmt_line
    end;
  Ok (set_id (generate_transaction_id stmt_line) stmt_line).

(** [SebStatementParser(fin, locale, brief)], on the active sheet of the
    workbook stored in [fin] *)
Definition new_parser (fin : Worksheet) (locale brief : PyVal)
    : result SebStatementParser :=
  validate fin;;
  st ← parse_statement fin;
  Ok {| locale := locale; brief := brief; workbook := fin; statement := st |}.

(** [not line] on a row of values: a row without values is falsy. *)
Definition has_values (row : list PyVal) : bool :=
  match row with
  | [] => false
  | _ :: _ => true
  end.

(** The loop of [StatementParser.parse].  The parser inherits it from the
    ofxstatement library, so its text is not in the repository; it is
    written here after the library: the loop goes through what
    [split_records] yields, passes over a row that is falsy, that is a row
    without values, and hands every other row to [parse_record]; the line
    that comes back is an object, hence truthy, and is appended; the first
    exception ends the run. *)
Fixpoint parse_loop (brief : PyVal) (rows : list (list PyVal))
    : result (list StatementLine) :=
  match rows with
  | [] => Ok []
  | row :: rows' =>
      if has_values row then
        stmt_line ← parse_record brief row;
        lines ← parse_loop brief rows';
        Ok (stmt_line :: lines)
      else parse_loop brief rows'
  end.

Definition parse_records (self : SebStatementParser) : result (list StatementLine) :=
  parse_loop (brief self) (split_records (workbook self)).

(** The rows the loop does not pass over *)
Definition rows_with_values (rows : list (list PyVal)) : list (list PyVal) :=
  List.filter has_values rows.
End Parser.

Definition parse_bool (v : PyVal) : result bool :=
  if lit_eq (LStr (py "True")) v || lit_eq (LStr (py "true")) v
     || lit_eq (LStr (py "1")) v then Ok true
  else if lit_eq (LStr (py "False")) v || lit_eq (LStr (py "false")) v
     || lit_eq (LStr (py "0")) v then Ok false
  else Raise ValueError.

(** ** The plugin *)

(** [key in d] and [d.get(key)] *)
Definition has_key (d : gmap string PyVal) (k : string) : bool :=
  bool_decide (is_Some (d !! k)).
Definition dict_get (d : gmap string PyVal) (k : string) : PyVal :=
  default PNone (d !! k).

(** The keyword arguments [get_parser] builds *)
Definition get_parser_kwargs (settings : gmap string PyVal)
    : result (gmap string PyVal) :=
  let kwargs : gmap string PyVal := {[ "locale" := PStr (py "sv_SE") ]} in
  if bool_decide (settings = ∅) then Ok kwargs
  else
    kwargs ←
      (if has_key settings "locale"
       then b ← parse_bool (dict_get settings "locale");
            Ok (<["locale" := PBool b]> kwargs)
       else Ok kwargs);
    (if has_key settings "brief"
     then b ← parse_bool (dict_get settings "brief");
          Ok (<["brief" := PBool b]> kwargs)
     else Ok kwargs).

Section Plugin.
Context `{UnicodeDB} `{OfxLib}.

(** [SebStatementParser(fin, **kwargs)]: a keyword left out takes the
    default of the constructor. *)
Definition get_parser (settings : gmap string PyVal) (fin : Worksheet)
    : result SebStatementParser :=
  kwargs ← get_parser_kwargs settings;
  new_parser fin (default PNone (kwargs !! "locale"))
                 (default (PBool false) (kwargs !! "brief")).
End Plugin.

(** ** Shapes of text the patterns accept *)

(** "YY-MM-DD": two digits, a dash, two digits, a dash, two digits *)
Definition is_yymmdd (d : str) : bool :=
  match d with
  | [a; b; m1; c; e; m2; f; h] =>
      ascii_digit a && ascii_digit b && (m1 =? chr "-")%N
      && ascii_digit c && ascii_digit e && (m2 =? chr "-")%N
      && ascii_digit f && ascii_digit h
  | _ => false
  end.

(** Where [$] matches: at the end, or before a line break that ends the text *)
Definition at_eol (t : str) : bool :=
  match t with
  | [] => true
  | [c] => (c =? NL)%N
  | _ => false
  end.

(** How many times "/YY-MM-DD" occurs in a text *)
Fixpoint count_slash_dates (s : str) : nat :=
  match s with
  | [] => 0
  | c :: s' =>
      (if (c =? chr "/")%N && is_yymmdd (take 8 s') then 1 else 0)
      + count_slash_dates s'
  end%nat.

(** The value a literal stands for *)
Definition lit_val (l : literal) : PyVal :=
  match l with
  | LNone => PNone
  | LStr s => PStr s
  end.

(** The layouts the validator is there to refuse *)
Definition bad_layout (sheet : Worksheet) : Prop :=
  (length sheet < 8)%nat
  \/ ~ Forall (fun row => length row = 6%nat) (take 8 sheet)
  \/ (exists r5, sheet !! 5%nat = Some r5 /\ values r5 <> replicate 6 PNone)
  \/ (exists r7, sheet !! 7%nat = Some r7 /\ values r7 <> lit_val <$> header_labels).

(** What is left after group 1 of the memo pattern: the slash, the date and
    the end of the text. *)
Definition memo_tail (p : str) : @cont Match :=
  fun j s' g' =>
    run (cats [Lit (chr "/");
               Group 2 (cats [d2; Lit (chr "-"); d2; Lit (chr "-"); d2]); Eol])
        (fun i _ g => Some {| m_end := i; m_groups := g |}) j s' ((1%nat, p) :: g').

(** ** A host and statements to run the parser on *)

(** The Unicode database below U+0100: the letters and the superscript and
    fraction digits of Latin-1 are alphanumeric, NEL and the no-break space
    are white space, and no decimal digit lies there. *)
Definition latin1_db : UnicodeDB :=
  {| uni_alnum c :=
       in_range 192 214 c || in_range 216 246 c || in_range 248 255 c
       || (c =? 170)%N || (c =? 181)%N || (c =? 186)%N
       || in_range 178 179 c || (c =? 185)%N || in_range 188 190 c;
     uni_space c := (c =? 133)%N || (c =? 160)%N;
     uni_decimal _ := None |}.

(** A stand-in for the digest of the statement library: the memo text. *)
Definition memo_digest : OfxLib :=
  {| generate_transaction_id l :=
       match memo l with
       | PStr s => s
       | _ => []
       end |}.

(** The [locale] module of Python 3.11 on a host that has the locales "C"
    and "C.utf8" and no "en_US.UTF-8" (a minimal Debian).  The state is the
    name the C library reports for the numeric locale.  [getlocale] parses
    that name through the alias table, which sends "C.utf8" to
    "en_US.UTF-8"; [setlocale] takes a name as it is, and builds the name
    "en_US.UTF-8" from the pair that [getlocale] gave, which this host does
    not have.  What the host does on other names and in other states, and
    how it reads a number, is left open: [elsewhere_get], [elsewhere_set]
    and [read_number]. *)
Definition locale_pair : Type := option str * option str.

Definition utf8_pair : locale_pair := (Some (py "en_US"), Some (py "UTF-8")).

Definition host_getlocale (elsewhere_get : str -> result locale_pair) (l : str)
    : result locale_pair :=
  if bool_decide (l = py "C") then Ok (None, None)
  else if bool_decide (l = py "C.utf8") then Ok utf8_pair
  else elsewhere_get l.

Definition host_setlocale
    (elsewhere_set : locale_arg locale_pair -> str -> result PyVal * str)
    (arg : locale_arg locale_pair) (l : str) : result PyVal * str :=
  match arg with
  | LocVal PNone => (Ok (PStr l), l)
  | LocVal (PStr name) =>
      if bool_decide (name = py "C") then (Ok (PStr (py "C")), py "C")
      else if bool_decide (name = py "C.utf8")
      then (Ok (PStr (py "C.utf8")), py "C.utf8")
      else elsewhere_set arg l
  | LocVal _ => (Raise TypeError, l)
  | LocSaved (None, None) => (Ok (PStr (py "C")), py "C")
  | LocSaved saved =>
      if bool_decide (saved = utf8_pair) then (Raise LocaleError, l)
      else elsewhere_set arg l
  end.

Definition utf8_host (F : Type) (read_number : str -> str -> result F)
    (elsewhere_get : str -> result locale_pair)
    (elsewhere_set : locale_arg locale_pair -> str -> result PyVal * str)
    : LocaleLib :=
  {| locale_state := str; category := unit; LC_NUMERIC := tt;
     locale_id := locale_pair; float := F;
     getlocale _ := host_getlocale elsewhere_get;
     setlocale _ := host_setlocale elsewhere_set;
     locale_atof := read_number |}.

Definition text_cell (s : string) : Cell := {| value := PStr (py s); style_id := 0 |}.
Definition number_cell (bits : N) : Cell := {| value := PFloat bits; style_id := 2 |}.
Definition blank : Cell := {| value := PNone; style_id := 0 |}.
Definition blank_row : list Cell := [blank; blank; blank; blank; blank; blank].

Definition labels_row : list Cell :=
  [text_cell "Bokföringsdatum"; text_cell "Valutadatum";
   text_cell "Verifikationsnummer"; text_cell "Text"; text_cell "Belopp";
   text_cell "Saldo"].

(** The eight rows above the records, given rows 4 and 5 *)
Definition preamble (account_row empty_row : list Cell) : Worksheet :=
  [ [text_cell "Kontoutdrag"; blank; blank; blank; blank; blank];
    blank_row;
    [text_cell "Konto"; text_cell "Saldo"; blank; blank; blank; blank];
    blank_row;
    account_row;
    empty_row;
    blank_row;
    labels_row ].

Definition account_row : list Cell :=
  [text_cell "Privatkonto (1234 567 890)"; text_cell "1 000,00"; blank; blank;
   blank; blank].

(** -125.5 and 874.5 as binary64 *)
Definition pub_row : list Cell :=
  [text_cell "2015-01-02"; text_cell "2015-01-02"; text_cell "5484381424";
   text_cell "WIRSTRÖMS PU/14-12-31";
   number_cell 13861903731185942528; number_cell 4650903399166902272].

Definition shop_row : list Cell :=
  [text_cell "2015-01-05"; text_cell "2015-01-03"; text_cell "5484381425";
   text_cell "ICA SUPERMARKET";
   number_cell 13861903731185942528; number_cell 4650903399166902272].

(** A statement with two records *)
Definition statement_sheet : Worksheet :=
  preamble account_row blank_row ++ [pub_row; shop_row].

(** A statement whose second record row has no cells *)
Definition gapped_sheet : Worksheet :=
  preamble account_row blank_row ++ [pub_row; []; shop_row].

(** A sheet whose account row is empty, well laid out otherwise *)
Definition no_account_sheet : Worksheet :=
  preamble blank_row blank_row ++ [pub_row].

(** A sheet without account row and with text in the row that must be empty *)
Definition shifted_sheet : Worksheet :=
  preamble blank_row account_row ++ [pub_row].

(** A record row with a memo and a value date of one's choice *)
Definition record_row (value_date : PyVal) (memo_text : str) : list PyVal :=
  [PStr (py "2015-01-02"); value_date; PStr (py "5484381424"); PStr memo_text;
   PFloat 13861903731185942528; PFloat 4650903399166902272].

(** Two slash-dates on two lines *)
Definition two_line_memo : str := py "A/14-01-01" ++ NL :: py "B/14-12-31".

(** ** Footer rows

    The patterns of [footer_regexps]: "^Datum:  -" and
    "^Datum: ([0-9]{4}-[0-9]{2}-[0-9]{2}) - ([0-9]{4}-[0-9]{2}-[0-9]{2})$". *)

(** The characters of a literal text, one after the other *)
Definition lits (s : string) : regex := cats (Lit <$> py s).

Definition d4 : regex := Cat d2 d2.

Definition iso_date_re : regex := cats [d4; Lit (chr "-"); d2; Lit (chr "-"); d2].

Definition footer_regexps : list regex :=
  [ Cat Bol (lits "Datum:  -");
    cats [Bol; lits "Datum: "; Group 1 iso_date_re; lits " - ";
          Group 2 iso_date_re; Eol] ].

(** The loop of [is_footer] over the patterns that are left *)
Fixpoint is_footer_from (rs : list regex) (row : list PyVal) : result bool :=
  match rs with
  | [] => Ok false
  | r :: rs' =>
      v ← index row 0;
      m ← re_match_val r v;
      if bool_decide (is_Some m) then Ok true else is_footer_from rs' row
  end.

Definition is_footer (row : list PyVal) : result bool :=
  is_footer_from footer_regexps row.

(** ** The layout the validator checks *)

Section Layout.
Context `{UnicodeDB}.

Definition accepted_layout (sheet : Worksheet) : Prop :=
  (8 <= length sheet)%nat
  /\ Forall (fun row => length row = 6%nat) (take 8 sheet)
  /\ (exists r4 s, sheet !! 4%nat = Some r4
                   /\ values r4 !! 0%nat = Some (PStr s)
                   /\ is_Some (re_match account_re s)
                   /\ last_two (values r4) = [PNone; PNone])
  /\ (exists r5, sheet !! 5%nat = Some r5 /\ values r5 = replicate 6 PNone)
  /\ (exists r7, sheet !! 7%nat = Some r7
                 /\ values r7 = lit_val <$> header_labels).
End Layout.

(** The first eight rows have six cells each, and row 4 starts with a cell
    that holds no text. *)
Definition account_cell_not_text (sheet : Worksheet) : Prop :=
  (8 <= length sheet)%nat
  /\ Forall (fun row => length row = 6%nat) (take 8 sheet)
  /\ exists row c, sheet !! 4%nat = Some row /\ row !! 0%nat = Some c
                   /\ forall s, value c <> PStr s.

(** ** Dates of the lines *)

(** A date of the calendar, in the years [datetime] knows *)
Definition calendar_date (d : datetime) : Prop :=
  1 <= year d <= 9999 /\ 1 <= month d <= 12
  /\ 1 <= day d <= days_in_month (year d) (month d).

(** The numbers of the groups of a pattern *)
Fixpoint group_numbers (r : regex) : list nat :=
  match r with
  | Cat r1 r2 | Alt r1 r2 => group_numbers r1 ++ group_numbers r2
  | Group n r' => n :: group_numbers r'
  | _ => []
  end.

(** A footer row as the bank writes it, and the same sheet in another style *)
Definition footer_row : list PyVal :=
  [PStr (py "Datum: 2014-01-01 - 2014-12-31"); PNone; PNone; PNone; PNone; PNone].

Definition restyle (c : Cell) : Cell := {| value := value c; style_id := 7 |}.

Definition restyle_row (row : list Cell) : list Cell := restyle <$> row.

Definition restyled_sheet : Worksheet := restyle_row <$> statement_sheet.

(** * Properties *)

(** ** The matcher *)

Section MatcherFacts.
Context {A : Type}.
Implicit Types (k : @cont A) (p : char -> bool).

Lemma one_inv p k i s g a :
  one p k i s g = Some a ->
  exists c s', s = c :: s' /\ p c = true /\ k (S i) s' g = Some a.
Proof.
  destruct s as [|c s']; simpl; [discriminate|].
  destruct (p c) eqn:Hc; [|discriminate].
  intros Hk. exists c, s'. auto.
Qed.

Lemma greedy_inv p k i s g a :
  greedy p k i s g = Some a ->
  exists n, (n <= length s)%nat /\ forallb p (take n s) = true
            /\ k (i + n)%nat (drop n s) g = Some a.
Proof.
  revert i. induction s as [|c s' IH]; intros i; simpl.
  - intros Hk. exists 0%nat. rewrite Nat.add_0_r. auto.
  - destruct (p c) eqn:Hc.
    + destruct (greedy p k (S i) s' g) as [b|] eqn:Hg.
      * intros [= ->]. apply IH in Hg as (n & Hn & Hall & Hk).
        exists (S n). simpl. rewrite Hc, Hall.
        replace (i + S n)%nat with (S i + n)%nat by lia.
        split; [lia|auto].
      * intros Hk. exists 0%nat. rewrite Nat.add_0_r. simpl.
        split; [lia|auto].
    + intros Hk. exists 0%nat. rewrite Nat.add_0_r. simpl.
      split; [lia|auto].
Qed.

(** Greedy repetition: the longest run of the class is tried first. *)
Lemma greedy_longest p k i a b g r :
  forallb p a = true ->
  greedy p k (i + length a)%nat b g = Some r ->
  greedy p k i (a ++ b) g = Some r.
Proof.
  revert i. induction a as [|c a IH]; intros i; simpl.
  - rewrite Nat.add_0_r. auto.
  - intros [Hc Ha]%andb_prop Hr. rewrite Hc.
    rewrite (IH (S i) Ha); [reflexivity|].
    replace (S i + length a)%nat with (i + S (length a))%nat by lia. exact Hr.
Qed.

Lemma greedy_none p k i s g :
  (forall n, (n <= length s)%nat -> k (i + n)%nat (drop n s) g = None) ->
  greedy p k i s g = None.
Proof.
  revert i. induction s as [|c s' IH]; intros i Hk; simpl.
  - specialize (Hk 0%nat). rewrite Nat.add_0_r in Hk. apply Hk. simpl. lia.
  - assert (H0 : k i (c :: s') g = None).
    { specialize (Hk 0%nat). rewrite Nat.add_0_r in Hk. apply Hk. simpl. lia. }
    destruct (p c); [|exact H0].
    rewrite IH; [exact H0|].
    intros n Hn. specialize (Hk (S n)).
    replace (i + S n)%nat with (S i + n)%nat in Hk by lia.
    apply Hk. simpl. lia.
Qed.
End MatcherFacts.

Lemma digit_not_slash c : ascii_digit c = true -> (chr "/" =? c)%N = false.
Proof.
  unfold ascii_digit, in_range.
  intros [H1 H2]%andb_prop. apply N.leb_le in H1. apply N.eqb_neq.
  change (chr "/") with 47%N. lia.
Qed.

Lemma is_yymmdd_inv d :
  is_yymmdd d = true ->
  exists a b c e f h,
    d = [a; b; chr "-"; c; e; chr "-"; f; h]
    /\ ascii_digit a = true /\ ascii_digit b = true /\ ascii_digit c = true
    /\ ascii_digit e = true /\ ascii_digit f = true /\ ascii_digit h = true.
Proof.
  destruct d as [|a [|b [|m1 [|c [|e [|m2 [|f [|h [|x d]]]]]]]]]; try discriminate.
  simpl. intros H.
  rewrite !andb_true_iff in H.
  destruct H as [[[[[[[Ha Hb] Hm1] Hc] He] Hm2] Hf] Hh].
  apply N.eqb_eq in Hm1, Hm2. subst.
  exists a, b, c, e, f, h. repeat split; auto.
Qed.

Lemma at_eol_inv t : at_eol t = true -> t = [] \/ t = [NL].
Proof.
  destruct t as [|c [|x t]]; simpl; auto; [|discriminate].
  intros ->%N.eqb_eq. auto.
Qed.


Lemma memo_tail_here p j d t g :
  is_yymmdd d = true -> at_eol t = true ->
  memo_tail p j (chr "/" :: d ++ t) g
  = Some {| m_end := j + 9; m_groups := (2%nat, d) :: (1%nat, p) :: g |}.
Proof.
  intros (a & b & c & e & f & h & -> & Ha & Hb & Hc & He & Hf & Hh)%is_yymmdd_inv Ht.
  unfold memo_tail. simpl. rewrite Ha, Hb, Hc, He, Hf, Hh. simpl.
  assert (Hpos : forall n : nat, (8 + n - n = 8)%nat) by (intros; lia).
  apply at_eol_inv in Ht as [-> | ->]; simpl;
    change (S (S (S (S (S (S (S (S j)))))))) with (8 + j)%nat;
    rewrite Hpos; simpl; do 2 f_equal; lia.
Qed.

Lemma memo_tail_inv p j s' g m :
  memo_tail p j s' g = Some m ->
  exists d t, s' = chr "/" :: d ++ t /\ is_yymmdd d = true /\ at_eol t = true
    /\ m = {| m_end := j + 9; m_groups := (2%nat, d) :: (1%nat, p) :: g |}.
Proof.
  unfold memo_tail. simpl. intros Hm.
  apply one_inv in Hm as (c0 & s0 & -> & Hc0%N.eqb_eq & Hm).
  apply one_inv in Hm as (a & s1 & -> & Ha & Hm).
  apply one_inv in Hm as (b & s2 & -> & Hb & Hm).
  apply one_inv in Hm as (m1 & s3 & -> & Hm1%N.eqb_eq & Hm).
  apply one_inv in Hm as (c & s4 & -> & Hc & Hm).
  apply one_inv in Hm as (e & s5 & -> & He & Hm).
  apply one_inv in Hm as (m2 & s6 & -> & Hm2%N.eqb_eq & Hm).
  apply one_inv in Hm as (f & s7 & -> & Hf & Hm).
  apply one_inv in Hm as (h & t & -> & Hh & Hm).
  exists [a; b; m1; c; e; m2; f; h], t.
  assert (Ht : at_eol t = true).
  { destruct t as [|x [|y t]]; simpl in *; auto; [|discriminate].
    destruct (x =? NL)%N; [reflexivity|discriminate]. }
  split; [rewrite <- Hc0; reflexivity|].
  split; [simpl; rewrite Ha, Hb, Hc, He, Hf, Hh, <- Hm1, <- Hm2; reflexivity|].
  split; [exact Ht|].
  assert (Hpos : forall n : nat, (8 + n - n = 8)%nat) by (intros; lia).
  change (S (S (S (S (S (S (S (S j)))))))) with (8 + j)%nat in Hm.
  rewrite Nat.sub_succ, Hpos in Hm.
  replace (j + 9)%nat with (S (8 + j)) by lia.
  destruct t as [|x [|y t]]; try discriminate.
  - injection Hm as <-. reflexivity.
  - destruct (x =? NL)%N; [|discriminate]. injection Hm as <-. reflexivity.
Qed.

(** No match of the slash and the date can start inside the last date. *)
Lemma memo_tail_late p j d t g n :
  is_yymmdd d = true -> at_eol t = true ->
  memo_tail p j (drop n (d ++ t)) g = None.
Proof.
  intros Hd Ht.
  destruct (memo_tail p j (drop n (d ++ t)) g) as [m|] eqn:Hm; [|reflexivity].
  exfalso.
  apply memo_tail_inv in Hm as (d' & t' & Hs & Hd' & Ht' & _).
  apply is_yymmdd_inv in Hd as (a & b & c & e & f & h & -> & Ha & _).
  apply is_yymmdd_inv in Hd' as (a' & b' & c' & e' & f' & h' & -> & _).
  assert (Hlen : length (drop n ([a; b; chr "-"; c; e; chr "-"; f; h] ++ t))
                 = (9 + length t')%nat) by (rewrite Hs; simpl; lia).
  rewrite length_drop, length_app in Hlen. simpl in Hlen.
  apply at_eol_inv in Ht as [-> | ->], Ht' as [-> | ->]; simpl in Hlen; try lia.
  assert (n = 0)%nat as -> by lia.
  simpl in Hs. injection Hs as Hs _.
  apply digit_not_slash in Ha. rewrite Hs, N.eqb_refl in Ha. discriminate.
Qed.

Section MemoPattern.
Context `{UnicodeDB}.

Lemma re_match_memo_unfold s :
  re_match memo_re s
  = greedy is_dot (fun j s' g' => memo_tail (take (j - 0) s) j s' g') 0%nat s [].
Proof. reflexivity. Qed.

(** A text made of a part without line break, a slash, a date and the
    end of the text matches, whatever the first part holds: group 1 is all
    of the first part, group 2 the date. *)
Lemma memo_re_match p d t :
  forallb is_dot p = true -> is_yymmdd d = true -> at_eol t = true ->
  re_match memo_re (p ++ chr "/" :: d ++ t)
  = Some {| m_end := length p + 9; m_groups := [(2%nat, d); (1%nat, p)] |}.
Proof.
  intros Hp Hd Ht. rewrite re_match_memo_unfold.
  apply greedy_longest; [exact Hp|]. simpl.
  change (is_dot (chr "/")) with true. cbv iota.
  rewrite greedy_none.
  - rewrite Nat.sub_0_r, take_app_length. apply memo_tail_here; assumption.
  - intros n _. apply memo_tail_late; assumption.
Qed.

(** Conversely, this is the only way to match. *)
Lemma memo_re_sound s m :
  re_match memo_re s = Some m ->
  exists p d t,
    s = p ++ chr "/" :: d ++ t
    /\ forallb is_dot p = true /\ is_yymmdd d = true /\ at_eol t = true
    /\ m = {| m_end := length p + 9; m_groups := [(2%nat, d); (1%nat, p)] |}.
Proof.
  rewrite re_match_memo_unfold.
  intros (n & Hn & Hall & Hk)%greedy_inv.
  apply memo_tail_inv in Hk as (d & t & Hs & Hd & Ht & ->).
  exists (take n s), d, t.
  rewrite <- Hs, take_drop. simpl.
  rewrite Nat.sub_0_r, length_take, Nat.min_l by lia.
  repeat split; assumption.
Qed.
End MemoPattern.

Section AccountPattern.
Context `{UnicodeDB}.

(** What a text matched by the account pattern looks like, and what
    group 1 holds then: the digits and white space between the
    parentheses, as they stand. *)
Lemma account_re_sound s m :
  re_match account_re s = Some m ->
  exists w sp g t,
    s = w ++ sp :: chr "(" :: g ++ chr ")" :: t
    /\ w <> [] /\ forallb is_word w = true /\ is_space sp = true
    /\ g <> [] /\ forallb is_digit_or_space g = true /\ at_eol t = true
    /\ group m 1 = PStr g.
Proof.
  unfold re_match, account_re. simpl. intros Hm.
  apply one_inv in Hm as (c & s1 & -> & Hc & Hm).
  apply greedy_inv in Hm as (n1 & Hn1 & Hw & Hm).
  apply one_inv in Hm as (sp & s2 & Hs1 & Hsp & Hm).
  apply one_inv in Hm as (lp & s3 & -> & Hlp%N.eqb_eq & Hm).
  apply one_inv in Hm as (c2 & s4 & -> & Hc2 & Hm).
  apply greedy_inv in Hm as (n2 & Hn2 & Hg & Hm).
  apply one_inv in Hm as (rp & t & Hs4 & Hrp%N.eqb_eq & Hm).
  exists (c :: take n1 s1), sp, (c2 :: take n2 s4), t.
  assert (Ht : at_eol t = true /\ group m 1 = PStr (c2 :: take n2 s4)).
  { replace (S (S (S (1 + n1))) + n2 - S (S (1 + n1)))%nat with (S n2) in Hm by lia.
    destruct t as [|x [|y t]]; simpl in Hm; try discriminate.
    - injection Hm as <-. split; reflexivity.
    - simpl. destruct (x =? NL)%N; [|discriminate].
      injection Hm as <-. split; reflexivity. }
  destruct Ht as [Ht Hgrp].
  repeat split; try assumption; try discriminate.
  - simpl. f_equal.
    rewrite <- (take_drop n1 s1) at 1. f_equal. rewrite Hs1. f_equal.
    rewrite <- Hlp. f_equal.
    change (c2 :: s4 = (c2 :: take n2 s4) ++ chr ")" :: t).
    simpl. f_equal. rewrite <- (take_drop n2 s4) at 1. f_equal.
    rewrite Hs4, <- Hrp. reflexivity.
  - simpl. rewrite Hc, Hw. reflexivity.
  - simpl. rewrite Hc2, Hg. reflexivity.
Qed.
End AccountPattern.

(** ** Results *)

Lemma bind_Ok_inv {A B} (m : result A) (f : A -> result B) b :
  m ≫= f = Ok b -> exists a, m = Ok a /\ f a = Ok b.
Proof. destruct m as [a|e]; [eauto|discriminate]. Qed.

Lemma bind_Ok {A B} (m : result A) (f : A -> result B) a :
  m = Ok a -> m ≫= f = f a.
Proof. intros ->. reflexivity. Qed.

Lemma py_assert_Ok b u : py_assert b = Ok u -> b = true.
Proof. destruct b; [reflexivity|discriminate]. Qed.

Lemma index_Ok {A} (l : list A) i a : index l i = Ok a <-> l !! i = Some a.
Proof. unfold index. destruct (l !! i); split; congruence. Qed.

Lemma index_0 {A} (a : A) l : index (a :: l) 0 = Ok a.
Proof. reflexivity. Qed.

Lemma index_S {A} (a : A) l n : index (a :: l) (S n) = index l n.
Proof. reflexivity. Qed.

Lemma mapM_length {A B} (f : A -> result B) l l' :
  mapM f l = Ok l' -> length l' = length l.
Proof.
  revert l'. induction l as [|x l IH]; intros l'; simpl.
  - intros [= <-]. reflexivity.
  - intros (y & _ & (k & Hk & [= <-])%bind_Ok_inv)%bind_Ok_inv.
    simpl. f_equal. auto.
Qed.

Lemma mapM_Ok_all {A B} (f : A -> result B) l :
  (forall x, x ∈ l -> exists y, f x = Ok y) -> exists l', mapM f l = Ok l'.
Proof.
  induction l as [|x l IH]; intros Hf; simpl; [eauto|].
  destruct (Hf x) as [y Hy]; [left|]. rewrite Hy. simpl.
  destruct IH as [l' Hl']; [intros z Hz; apply Hf; right; exact Hz|].
  rewrite Hl'. simpl. eauto.
Qed.

(** The loop over the rows: every row is asserted to have six cells. *)
Lemma six_cells_Ok (rows : list (list Cell)) us :
  mapM (fun row : list Cell => py_assert (length row =? 6)%nat) rows = Ok us ->
  Forall (fun row => length row = 6%nat) rows.
Proof.
  revert us. induction rows as [|r rows IH]; intros us; simpl; [constructor|].
  intros (u & Hu%py_assert_Ok & (k & Hk & _)%bind_Ok_inv)%bind_Ok_inv.
  constructor; [apply Nat.eqb_eq, Hu|eauto].
Qed.

Lemma six_cells_all (rows : list (list Cell)) :
  Forall (fun row => length row = 6%nat) rows ->
  exists us, mapM (fun row : list Cell => py_assert (length row =? 6)%nat) rows = Ok us.
Proof.
  intros Hall. apply mapM_Ok_all. intros r Hr.
  rewrite Forall_forall in Hall. rewrite (Hall r Hr). simpl. eauto.
Qed.

Lemma six_cells_fail (rows : list (list Cell)) :
  ~ Forall (fun row => length row = 6%nat) rows ->
  mapM (fun row : list Cell => py_assert (length row =? 6)%nat) rows
  = Raise AssertionError.
Proof.
  induction rows as [|r rows IH]; intros Hn; simpl.
  - exfalso. apply Hn. constructor.
  - destruct (Nat.eqb_spec (length r) 6) as [Hr|Hr]; simpl; [|reflexivity].
    rewrite IH; [reflexivity|]. intros Hall. apply Hn. constructor; assumption.
Qed.

Lemma lookup_values_rows (sheet : Worksheet) n i r :
  (values <$> take n sheet) !! i = Some r ->
  exists row, sheet !! i = Some row /\ r = values row /\ (i < n)%nat.
Proof.
  rewrite list_lookup_fmap. intros Hr.
  destruct (take n sheet !! i) as [row|] eqn:Hrow; [|discriminate].
  injection Hr as <-.
  apply lookup_take_Some in Hrow as [Hrow Hi]. eauto.
Qed.

Lemma re_match_val_Ok r v o :
  re_match_val r v = Ok o -> exists s, v = PStr s /\ o = re_match r s.
Proof. destruct v; simpl; try discriminate. intros [= <-]. eauto. Qed.

(** ** The layout validator *)

Section ValidatorFacts.
Context `{UnicodeDB}.

Lemma validate_Ok sheet : validate sheet = Ok tt <-> _validate sheet = Ok tt.
Proof.
  unfold validate. destruct (_validate sheet) as [[]|[]]; split; congruence.
Qed.

(** What an accepted worksheet looks like. *)
Lemma _validate_Ok_inv sheet :
  _validate sheet = Ok tt ->
  (8 <= length sheet)%nat
  /\ Forall (fun row => length row = 6%nat) (take 8 sheet)
  /\ exists r4 r5 r7 s m,
      sheet !! 4%nat = Some r4 /\ values r4 !! 0%nat = Some (PStr s)
      /\ re_match account_re s = Some m
      /\ lits_eq [LNone; LNone] (last_two (values r4)) = true
      /\ sheet !! 5%nat = Some r5
      /\ lits_eq [LNone; LNone; LNone; LNone; LNone; LNone] (values r5) = true
      /\ sheet !! 7%nat = Some r7
      /\ lits_eq header_labels (values r7) = true.
Proof.
  unfold _validate. intros Hv.
  apply bind_Ok_inv in Hv as (u1 & Hlen%py_assert_Ok & Hv).
  apply bind_Ok_inv in Hv as (us & Hsix%six_cells_Ok & Hv).
  apply bind_Ok_inv in Hv as (r4' & Hr4%index_Ok & Hv).
  apply bind_Ok_inv in Hv as (a & Ha%index_Ok & Hv).
  apply bind_Ok_inv in Hv as (m & Hm & Hv).
  apply bind_Ok_inv in Hv as (u2 & Hsome%py_assert_Ok & Hv).
  apply bind_Ok_inv in Hv as (u3 & Hlast%py_assert_Ok & Hv).
  apply bind_Ok_inv in Hv as (r5' & Hr5%index_Ok & Hv).
  apply bind_Ok_inv in Hv as (u4 & Hempty%py_assert_Ok & Hv).
  apply bind_Ok_inv in Hv as (r7' & Hr7%index_Ok & Hv).
  apply bind_Ok_inv in Hv as (u5 & Hhead%py_assert_Ok & _).
  apply Nat.eqb_eq in Hlen. rewrite length_take in Hlen.
  apply lookup_values_rows in Hr4 as (r4 & Hr4 & -> & _).
  apply lookup_values_rows in Hr5 as (r5 & Hr5 & -> & _).
  apply lookup_values_rows in Hr7 as (r7 & Hr7 & -> & _).
  apply re_match_val_Ok in Hm as (s & -> & ->).
  apply bool_decide_eq_true in Hsome as [m Hm].
  split; [lia|]. split; [exact Hsix|].
  exists r4, r5, r7, s, m. repeat split; assumption.
Qed.
End ValidatorFacts.

Lemma index_rows (sheet : Worksheet) i row :
  sheet !! i = Some row -> (i < 8)%nat ->
  index (values <$> take 8 sheet) i = Ok (values row).
Proof.
  intros Hrow Hi. apply index_Ok.
  rewrite list_lookup_fmap, lookup_take_lt, Hrow by exact Hi. reflexivity.
Qed.

Lemma length_rows (sheet : Worksheet) :
  (8 <= length sheet)%nat -> length (values <$> take 8 sheet) = 8%nat.
Proof. intros Hlen. rewrite length_fmap, length_take. lia. Qed.

(** ** The statement header extractor *)

Section HeaderFacts.
Context `{UnicodeDB}.

(** C4: for a worksheet the validator accepts, [parse_statement] returns a
    statement whose account id is group 1 of the account pattern matched
    against the first cell of row index 4 (a non-empty run of digits and
    white space, kept as it stands), whose bank id is "SEB" and whose
    currency is "SEK". *)
Theorem parse_statement_of_accepted (sheet : Worksheet) :
  validate sheet = Ok tt ->
  exists row c s m g,
    sheet !! 4%nat = Some row /\ row !! 0%nat = Some c /\ value c = PStr s
    /\ re_match account_re s = Some m /\ group m 1 = PStr g
    /\ g <> [] /\ forallb is_digit_or_space g = true
    /\ parse_statement sheet
       = Ok {| account_id := PStr g; bank_id := py "SEB"; currency := py "SEK" |}.
Proof.
  intros Hv%validate_Ok.
  apply _validate_Ok_inv in Hv
    as (Hlen & _ & r4 & _ & _ & s & m & Hr4 & Hcell & Hm & _).
  unfold values in Hcell. rewrite list_lookup_fmap in Hcell.
  destruct (r4 !! 0%nat) as [c|] eqn:Hc; [|discriminate].
  injection Hcell as Hcell.
  destruct (account_re_sound s m Hm)
    as (w & sp & g & t & _ & _ & _ & _ & Hg & Hall & _ & Hgrp).
  exists r4, c, s, m, g. repeat split; try assumption.
  unfold parse_statement.
  rewrite length_rows by exact Hlen. simpl.
  rewrite (index_rows sheet 4 r4 Hr4) by lia.
  destruct r4 as [|c' r4']; [discriminate|]. injection Hc as ->.
  simpl. rewrite Hcell. simpl. rewrite Hm, Hgrp. reflexivity.
Qed.
End HeaderFacts.

(** ** What the validator answers *)


Lemma lit_eq_true l v : lit_eq l v = true <-> v = lit_val l.
Proof.
  destruct l, v; simpl; split; try congruence.
  - intros ->%bool_decide_eq_true. reflexivity.
  - intros [= ->]. apply bool_decide_eq_true. reflexivity.
Qed.

Lemma lits_eq_true ls vs : lits_eq ls vs = true <-> vs = lit_val <$> ls.
Proof.
  revert vs. induction ls as [|l ls IH]; intros [|v vs]; simpl;
    try (split; congruence).
  rewrite andb_true_iff, lit_eq_true, IH. split.
  - intros [-> ->]. reflexivity.
  - intros [= -> ->]. auto.
Qed.

Section ValidatorOutcomes.
Context `{UnicodeDB}.

(** A worksheet whose first eight rows have six cells each is accepted,
    or fails an assertion, or (when the account cell holds no text)
    makes [re.match] raise. *)
Lemma _validate_outcome (sheet : Worksheet) :
  _validate sheet = Ok tt
  \/ _validate sheet = Raise AssertionError
  \/ (_validate sheet = Raise TypeError
      /\ (8 <= length sheet)%nat
      /\ Forall (fun row => length row = 6%nat) (take 8 sheet)
      /\ exists row c, sheet !! 4%nat = Some row /\ row !! 0%nat = Some c
                       /\ forall s, value c <> PStr s).
Proof.
  unfold _validate.
  destruct (length (take 8 sheet) =? 8)%nat eqn:Hlen; simpl; [|auto].
  apply Nat.eqb_eq in Hlen. rewrite length_take in Hlen.
  destruct (decide (Forall (fun row : list Cell => length row = 6%nat) (take 8 sheet)))
    as [Hsix|Hsix]; [|rewrite (six_cells_fail _ Hsix); simpl; auto].
  destruct (six_cells_all _ Hsix) as [us ->]. simpl.
  destruct (lookup_lt_is_Some_2 sheet 4) as [r4 Hr4]; [lia|].
  destruct (lookup_lt_is_Some_2 sheet 5) as [r5 Hr5]; [lia|].
  destruct (lookup_lt_is_Some_2 sheet 7) as [r7 Hr7]; [lia|].
  rewrite (index_rows sheet 4 r4 Hr4), (index_rows sheet 5 r5 Hr5),
    (index_rows sheet 7 r7 Hr7) by lia. simpl.
  assert (Hr4len : length r4 = 6%nat).
  { rewrite Forall_lookup in Hsix. apply (Hsix 4%nat).
    rewrite lookup_take_lt by lia. exact Hr4. }
  destruct r4 as [|c r4']; [discriminate|].
  unfold index at 1. simpl.
  destruct (value c) as [|s| | | |] eqn:Hc; simpl;
    try (right; right; split; [reflexivity|];
         split; [lia|]; split; [exact Hsix|];
         exists (c :: r4'), c; rewrite Hc; repeat split; congruence).
  repeat match goal with
         | |- context [py_assert ?b] => destruct b; simpl; auto
         end.
Qed.

Lemma validate_outcome (sheet : Worksheet) :
  validate sheet = Ok tt
  \/ validate sheet = Raise ValueError
  \/ (validate sheet = Raise TypeError
      /\ (8 <= length sheet)%nat
      /\ Forall (fun row => length row = 6%nat) (take 8 sheet)
      /\ exists row c, sheet !! 4%nat = Some row /\ row !! 0%nat = Some c
                       /\ forall s, value c <> PStr s).
Proof.
  unfold validate.
  destruct (_validate_outcome sheet) as [-> | [-> | [-> Hrest]]]; auto.
Qed.


Lemma bad_layout_not_accepted (sheet : Worksheet) :
  bad_layout sheet -> validate sheet <> Ok tt.
Proof.
  intros Hbad Hv%validate_Ok.
  apply _validate_Ok_inv in Hv
    as (Hlen & Hsix & r4 & r5 & r7 & s & m & _ & _ & _ & _ & Hr5 & He & Hr7 & Hh).
  apply lits_eq_true in He, Hh.
  destruct Hbad as [Hb | [Hb | [(r & Hr & Hb) | (r & Hr & Hb)]]].
  - lia.
  - contradiction.
  - rewrite Hr5 in Hr. injection Hr as <-. apply Hb. exact He.
  - rewrite Hr7 in Hr. injection Hr as <-. apply Hb. exact Hh.
Qed.

(** A refused layout gives the converted error whenever the account cell
    holds text (or an earlier check already fails). *)
Lemma bad_layout_ValueError (sheet : Worksheet) :
  bad_layout sheet ->
  (forall row c, sheet !! 4%nat = Some row -> row !! 0%nat = Some c ->
                 exists s, value c = PStr s) ->
  validate sheet = Raise ValueError.
Proof.
  intros Hbad Htext.
  destruct (validate_outcome sheet)
    as [Hv | [Hv | (_ & _ & _ & row & c & Hrow & Hc & Hno)]]; [|exact Hv|].
  - exfalso. exact (bad_layout_not_accepted sheet Hbad Hv).
  - exfalso. destruct (Htext row c Hrow Hc) as [s Hs]. exact (Hno s Hs).
Qed.

(** C10: a worksheet with at least eight rows, the first eight of six
    cells each, whose row index 4 starts with an absent cell does not
    fail with the converted error: [re.match] raises a [TypeError] on the
    absent value before any assertion about that row is reached, and
    [validate] lets it through unchanged. *)
Theorem validate_absent_account_cell (sheet : Worksheet) row c :
  (8 <= length sheet)%nat ->
  Forall (fun row => length row = 6%nat) (take 8 sheet) ->
  sheet !! 4%nat = Some row -> row !! 0%nat = Some c -> value c = PNone ->
  _validate sheet = Raise TypeError /\ validate sheet = Raise TypeError.
Proof.
  intros Hlen Hsix Hrow Hc Hnone.
  assert (Hv : _validate sheet = Raise TypeError).
  { unfold _validate.
    rewrite length_take, Nat.min_l by exact Hlen. simpl.
    destruct (six_cells_all _ Hsix) as [us ->]. simpl.
    rewrite (index_rows sheet 4 row Hrow) by lia.
    destruct row as [|c' row']; [discriminate|]. injection Hc as ->.
    simpl. rewrite Hnone. reflexivity. }
  split; [exact Hv|]. unfold validate. rewrite Hv. reflexivity.
Qed.
End ValidatorOutcomes.

(** ** Counting slash-dates *)

Lemma is_yymmdd_length d : is_yymmdd d = true -> length d = 8%nat.
Proof.
  intros (a & b & c & e & f & h & -> & _)%is_yymmdd_inv. reflexivity.
Qed.

Lemma is_yymmdd_no_slash d : is_yymmdd d = true -> chr "/" ∉ d.
Proof.
  intros (a & b & c & e & f & h & -> & Ha & Hb & Hc & He & Hf & Hh)%is_yymmdd_inv.
  rewrite !elem_of_cons, elem_of_nil.
  intros [Hx | [Hx | [Hx | [Hx | [Hx | [Hx | [Hx | [Hx | []]]]]]]]];
    try discriminate;
    match goal with
    | Hd : ascii_digit ?x = true |- _ =>
        apply digit_not_slash in Hd; rewrite <- Hx, N.eqb_refl in Hd; discriminate
    end.
Qed.

(** Before a slash, a date can only lie within the text that precedes. *)
Lemma is_yymmdd_before_slash (b x : str) :
  is_yymmdd (take 8 (b ++ chr "/" :: x)) = is_yymmdd (take 8 b).
Proof.
  destruct (decide (8 <= length b)%nat) as [Hlen|Hlen].
  - rewrite take_app_le by exact Hlen. reflexivity.
  - destruct (is_yymmdd (take 8 (b ++ chr "/" :: x))) eqn:Hy.
    + exfalso. apply is_yymmdd_no_slash in Hy. apply Hy.
      apply list_elem_of_lookup. exists (length b).
      rewrite lookup_take_lt by lia.
      rewrite lookup_app_r, Nat.sub_diag by lia. reflexivity.
    + destruct (is_yymmdd (take 8 b)) eqn:Hy'; [|reflexivity].
      apply is_yymmdd_length in Hy'. rewrite length_take in Hy'. lia.
Qed.

Lemma count_slash_dates_short s : (length s < 9)%nat -> count_slash_dates s = 0%nat.
Proof.
  induction s as [|c s IH]; simpl; [reflexivity|]. intros Hlen.
  rewrite IH by lia.
  destruct (is_yymmdd (take 8 s)) eqn:Hy.
  - apply is_yymmdd_length in Hy. rewrite length_take in Hy. lia.
  - rewrite andb_false_r. reflexivity.
Qed.

Lemma count_slash_dates_date d t :
  is_yymmdd d = true -> at_eol t = true -> count_slash_dates (d ++ t) = 0%nat.
Proof.
  intros Hd Ht. pose proof (is_yymmdd_length d Hd) as Hlen.
  apply at_eol_inv in Ht as [-> | ->].
  - apply count_slash_dates_short. rewrite length_app. simpl. lia.
  - apply is_yymmdd_inv in Hd as (a & b & c & e & f & h & -> & Ha & _).
    change (count_slash_dates ([a; b; chr "-"; c; e; chr "-"; f; h] ++ [NL]))
      with ((if (a =? chr "/")%N
                && is_yymmdd (take 8 [b; chr "-"; c; e; chr "-"; f; h; NL])
             then 1 else 0)
            + count_slash_dates [b; chr "-"; c; e; chr "-"; f; h; NL])%nat.
    rewrite (count_slash_dates_short [b; chr "-"; c; e; chr "-"; f; h; NL])
      by (simpl; lia).
    apply digit_not_slash in Ha. rewrite N.eqb_sym in Ha. rewrite Ha. reflexivity.
Qed.

(** The slash-date that ends the text is one more than those before it. *)
Lemma count_slash_dates_last before last t :
  is_yymmdd last = true -> at_eol t = true ->
  count_slash_dates (before ++ chr "/" :: last ++ t)
  = S (count_slash_dates before).
Proof.
  intros Hl Ht. induction before as [|c b IH].
  - simpl. rewrite take_app_le, take_ge
      by (rewrite (is_yymmdd_length last Hl); lia).
    rewrite Hl, (count_slash_dates_date last t Hl Ht). reflexivity.
  - change (count_slash_dates ((c :: b) ++ chr "/" :: last ++ t))
      with ((if (c =? chr "/")%N && is_yymmdd (take 8 (b ++ chr "/" :: last ++ t))
             then 1 else 0)
            + count_slash_dates (b ++ chr "/" :: last ++ t))%nat.
    rewrite is_yymmdd_before_slash, IH. simpl. lia.
Qed.

(** ** The record parser *)

Section RecordFacts.
Context `{UnicodeDB} `{OfxLib}.

(** [parse_record] on a row whose two dates parse and whose memo is text *)
Lemma parse_record_text brief v0 v1 v2 text v4 rest d0 d1 :
  parse_datetime v0 = Ok d0 -> parse_datetime v1 = Ok d1 ->
  parse_record brief ([v0; v1; v2; PStr text; v4] ++ rest)
  = (let plain := {| id := None; date := Some d0; memo := PStr text;
                     amount := v4; refnum := v2; date_user := None |} in
     stmt_line ←
       match re_match memo_re text with
       | Some m =>
           du ← strptime (group m 2) ymd_format;
           Ok (set_date_user du
                 (if truthy brief then set_memo (group m 1) plain else plain))
       | None => Ok plain
       end;
     Ok (set_id (generate_transaction_id stmt_line) stmt_line)).
Proof.
  intros Hd0 Hd1. unfold parse_record.
  change (take 5 ([v0; v1; v2; PStr text; v4] ++ rest))
    with [v0; v1; v2; PStr text; v4].
  change (index [v0; v1; v2; PStr text; v4] 0) with (Ok v0).
  change (index [v0; v1; v2; PStr text; v4] 1) with (Ok v1).
  change (index [v0; v1; v2; PStr text; v4] 2) with (Ok v2).
  change (index [v0; v1; v2; PStr text; v4] 3) with (Ok (PStr text)).
  change (index [v0; v1; v2; PStr text; v4] 4) with (Ok v4).
  rewrite (bind_Ok (Ok v0) _ v0 eq_refl), (bind_Ok _ _ d0 Hd0).
  rewrite (bind_Ok (Ok v1) _ v1 eq_refl), (bind_Ok _ _ d1 Hd1).
  reflexivity.
Qed.

(** C2: for a row whose memo matches the memo pattern, [parse_record]
    sets [date_user] to the date parsed from the "YY-MM-DD" suffix whether
    brief mode is on or off, and the memo becomes group 1 exactly when
    brief mode is on; for a memo that does not match, [date_user] stays
    unset and the memo is the one of the row, in both modes. *)
Theorem parse_record_embedded_date brief v0 v1 v2 text v4 rest d0 d1 :
  parse_datetime v0 = Ok d0 -> parse_datetime v1 = Ok d1 ->
  let row := [v0; v1; v2; PStr text; v4] ++ rest in
  (forall m, re_match memo_re text = Some m ->
     exists clean suffix t,
       group m 1 = PStr clean /\ group m 2 = PStr suffix
       /\ text = clean ++ chr "/" :: suffix ++ t
       /\ is_yymmdd suffix = true /\ at_eol t = true
       /\ parse_record brief row
          = (du ← strptime (PStr suffix) ymd_format;
             let line :=
               {| id := None; date := Some d0;
                  memo := if truthy brief then PStr clean else PStr text;
                  amount := v4; refnum := v2; date_user := Some du |} in
             Ok (set_id (generate_transaction_id line) line)))
  /\ (re_match memo_re text = None ->
      parse_record brief row
      = (let line :=
           {| id := None; date := Some d0; memo := PStr text;
              amount := v4; refnum := v2; date_user := None |} in
         Ok (set_id (generate_transaction_id line) line))).
Proof.
  intros Hd0 Hd1 row. unfold row.
  rewrite (parse_record_text brief v0 v1 v2 text v4 rest d0 d1 Hd0 Hd1).
  split.
  - intros m Hm. rewrite Hm.
    apply memo_re_sound in Hm as (p & d & t & -> & _ & Hd & Ht & ->).
    exists p, d, t. repeat split; try assumption.
    change (group {| m_end := length p + 9; m_groups := [(2%nat, d); (1%nat, p)] |} 2)
      with (PStr d).
    change (group {| m_end := length p + 9; m_groups := [(2%nat, d); (1%nat, p)] |} 1)
      with (PStr p).
    destruct (strptime (PStr d) ymd_format) as [du|e]; [|reflexivity].
    destruct (truthy brief); reflexivity.
  - intros ->. reflexivity.
Qed.

(** C9, as the code has it: when the memo is a part without line break
    followed by a slash, a "YY-MM-DD" date and the end of the text, group 1
    is all of the first part, however many slash-dates it holds itself:
    [date_user] is parsed from the last one and in brief mode the memo
    keeps all the earlier ones. *)
Theorem parse_record_last_slash_date brief v0 v1 v2 v4 rest d0 d1 before last t :
  parse_datetime v0 = Ok d0 -> parse_datetime v1 = Ok d1 ->
  forallb is_dot before = true -> is_yymmdd last = true -> at_eol t = true ->
  let text := before ++ chr "/" :: last ++ t in
  exists m,
    re_match memo_re text = Some m
    /\ group m 1 = PStr before /\ group m 2 = PStr last
    /\ count_slash_dates text = S (count_slash_dates before)
    /\ parse_record brief ([v0; v1; v2; PStr text; v4] ++ rest)
       = (du ← strptime (PStr last) ymd_format;
          let line :=
            {| id := None; date := Some d0;
               memo := if truthy brief then PStr before else PStr text;
               amount := v4; refnum := v2; date_user := Some du |} in
          Ok (set_id (generate_transaction_id line) line)).
Proof.
  intros Hd0 Hd1 Hb Hl Ht text.
  pose proof (memo_re_match before last t Hb Hl Ht) as Hm. fold text in Hm.
  eexists. split; [exact Hm|].
  split; [reflexivity|]. split; [reflexivity|].
  split; [apply count_slash_dates_last; assumption|].
  rewrite (parse_record_text brief v0 v1 v2 text v4 rest d0 d1 Hd0 Hd1), Hm.
  change (group {| m_end := length before + 9;
                   m_groups := [(2%nat, last); (1%nat, before)] |} 2)
    with (PStr last).
  change (group {| m_end := length before + 9;
                   m_groups := [(2%nat, last); (1%nat, before)] |} 1)
    with (PStr before).
  destruct (strptime (PStr last) ymd_format) as [du|e]; [|reflexivity].
  destruct (truthy brief); reflexivity.
Qed.

(** The value date is parsed second, and nothing after it depends on it. *)
Lemma parse_record_two brief a row' :
  exists rest_of_record : datetime -> result StatementLine,
    forall b, parse_record brief (a :: b :: row')
              = (d ← parse_datetime a; parse_datetime b;; rest_of_record d).
Proof.
  eexists. intros b. unfold parse_record.
  change (take 5 (a :: b :: row')) with (a :: b :: take 3 row').
  rewrite !index_S, !index_0. reflexivity.
Qed.

(** C5: [parse_record] parses positional value 1 with the date format and
    drops the result.  A value there that does not parse makes the whole
    record fail with the error of a date parse (its own, unless the date
    at position 0 has failed before it); a value that parses leaves no
    trace: replacing it by any other value that parses changes nothing in
    what [parse_record] returns. *)
Theorem parse_record_value_date brief row :
  (forall v e, row !! 1%nat = Some v -> parse_datetime v = Raise e ->
     exists e', parse_record brief row = Raise e'
       /\ (e' = e \/ exists v0, row !! 0%nat = Some v0
                                /\ parse_datetime v0 = Raise e'))
  /\ (forall v v' d d', parse_datetime v = Ok d -> parse_datetime v' = Ok d' ->
       parse_record brief (<[1%nat:=v]> row)
       = parse_record brief (<[1%nat:=v']> row)).
Proof.
  split.
  - intros v e Hv He.
    destruct row as [|a [|b row']]; try discriminate.
    injection Hv as ->.
    destruct (parse_record_two brief a row') as [k ->].
    destruct (parse_datetime a) as [d|e0] eqn:Ha.
    + exists e. rewrite He. auto.
    + exists e0. split; [reflexivity|]. right. exists a. auto.
  - intros v v' d d' Hv Hv'.
    destruct row as [|a [|b row']]; try reflexivity.
    change (<[1%nat:=v]> (a :: b :: row')) with (a :: v :: row').
    change (<[1%nat:=v']> (a :: b :: row')) with (a :: v' :: row').
    destruct (parse_record_two brief a row') as [k Hk].
    rewrite !Hk, Hv, Hv'. reflexivity.
Qed.
End RecordFacts.

(** ** Settings *)

Lemma lit_eq_false l v : lit_eq l v = false <-> v <> lit_val l.
Proof.
  rewrite <- lit_eq_true. destruct (lit_eq l v); split; congruence.
Qed.

(** C6: [parse_bool] answers true on exactly "True", "true" and "1", false
    on exactly "False", "false" and "0", and raises [ValueError] on every
    other value. *)
Theorem parse_bool_tokens (v : PyVal) :
  (parse_bool v = Ok true
   <-> v = PStr (py "True") \/ v = PStr (py "true") \/ v = PStr (py "1"))
  /\ (parse_bool v = Ok false
      <-> v = PStr (py "False") \/ v = PStr (py "false") \/ v = PStr (py "0"))
  /\ (parse_bool v = Raise ValueError
      <-> ~ (v = PStr (py "True") \/ v = PStr (py "true") \/ v = PStr (py "1")
             \/ v = PStr (py "False") \/ v = PStr (py "false")
             \/ v = PStr (py "0"))).
Proof.
  unfold parse_bool.
  destruct (lit_eq (LStr (py "True")) v) eqn:E1;
    [apply lit_eq_true in E1; subst v; vm_compute; intuition discriminate|].
  destruct (lit_eq (LStr (py "true")) v) eqn:E2;
    [apply lit_eq_true in E2; subst v; vm_compute; intuition discriminate|].
  destruct (lit_eq (LStr (py "1")) v) eqn:E3;
    [apply lit_eq_true in E3; subst v; vm_compute; intuition discriminate|].
  destruct (lit_eq (LStr (py "False")) v) eqn:E4;
    [apply lit_eq_true in E4; subst v; vm_compute; intuition discriminate|].
  destruct (lit_eq (LStr (py "false")) v) eqn:E5;
    [apply lit_eq_true in E5; subst v; vm_compute; intuition discriminate|].
  destruct (lit_eq (LStr (py "0")) v) eqn:E6;
    [apply lit_eq_true in E6; subst v; vm_compute; intuition discriminate|].
  apply lit_eq_false in E1, E2, E3, E4, E5, E6. simpl orb. cbv iota.
  change (lit_val (LStr (py "True"))) with (PStr (py "True")) in E1.
  change (lit_val (LStr (py "true"))) with (PStr (py "true")) in E2.
  change (lit_val (LStr (py "1"))) with (PStr (py "1")) in E3.
  change (lit_val (LStr (py "False"))) with (PStr (py "False")) in E4.
  change (lit_val (LStr (py "false"))) with (PStr (py "false")) in E5.
  change (lit_val (LStr (py "0"))) with (PStr (py "0")) in E6.
  intuition discriminate.
Qed.

(** ** The plugin entry point *)

Lemma has_key_Some (d : gmap string PyVal) k v :
  d !! k = Some v -> has_key d k = true.
Proof. intros Hv. apply bool_decide_eq_true_2. rewrite Hv. eauto. Qed.

Lemma dict_get_Some (d : gmap string PyVal) k v :
  d !! k = Some v -> dict_get d k = v.
Proof. unfold dict_get. intros ->. reflexivity. Qed.

(** Whatever the settings hold under "locale" goes through [parse_bool]:
    the parser is never handed a locale name read from the settings. *)
Lemma locale_setting_parsed_as_bool (settings : gmap string PyVal) v :
  settings !! "locale" = Some v ->
  (forall e, parse_bool v = Raise e -> get_parser_kwargs settings = Raise e)
  /\ (forall kwargs, get_parser_kwargs settings = Ok kwargs ->
        exists b, parse_bool v = Ok b /\ kwargs !! "locale" = Some (PBool b)).
Proof.
  intros Hv. unfold get_parser_kwargs.
  rewrite bool_decide_eq_false_2
    by (intros ->; rewrite lookup_empty in Hv; discriminate).
  rewrite (has_key_Some settings "locale" v Hv).
  rewrite (dict_get_Some settings "locale" v Hv).
  split.
  - intros e ->. reflexivity.
  - intros kwargs Hk. destruct (parse_bool v) as [b|e]; [|discriminate].
    exists b. split; [reflexivity|]. simpl in Hk.
    destruct (has_key settings "brief").
    + destruct (parse_bool (dict_get settings "brief")) as [b'|e'];
        [|discriminate].
      injection Hk as <-.
      rewrite lookup_insert_ne by discriminate. apply lookup_insert_eq.
    + injection Hk as <-. apply lookup_insert_eq.
Qed.

Section PluginFacts.
Context `{UnicodeDB} `{OfxLib}.

(** C1, on the code: with the settings holding the locale name "sv_SE"
    under "locale", [get_parser] does not build a parser with that name; it
    hands the name to [parse_bool] and fails with its [ValueError],
    whatever the workbook. *)
Theorem get_parser_locale_name_rejected (fin : Worksheet) :
  get_parser {[ "locale" := PStr (py "sv_SE") ]} fin = Raise ValueError.
Proof.
  unfold get_parser.
  destruct (locale_setting_parsed_as_bool
              {[ "locale" := PStr (py "sv_SE") ]} (PStr (py "sv_SE")))
    as [Hraise _]; [apply lookup_singleton_eq|].
  rewrite (Hraise ValueError); reflexivity.
Qed.
End PluginFacts.


(** ** More on the validator *)

Section ValidatorExact.
Context `{UnicodeDB}.

(** X1: [validate] accepts a worksheet exactly when it has at least eight
    rows, the first eight have six cells each, row 4 starts with text that
    the account pattern matches and ends with two absent cells, row 5 is
    all absent and row 7 holds the six labels.  Rows after the eighth are
    not looked at. *)
Theorem validate_accepts_iff (sheet : Worksheet) :
  validate sheet = Ok tt <-> accepted_layout sheet.
Proof.
  rewrite validate_Ok. split.
  - intros Hv. apply _validate_Ok_inv in Hv
      as (Hlen & Hsix & r4 & r5 & r7 & s & m & Hr4 & Hc & Hm & Hl & Hr5 & He & Hr7 & Hh).
    apply lits_eq_true in Hl, He, Hh.
    repeat split; try assumption.
    + exists r4, s. rewrite Hm. eauto.
    + exists r5. eauto.
    + exists r7. eauto.
  - intros (Hlen & Hsix & (r4 & s & Hr4 & Hc & [m Hm] & Hl) & (r5 & Hr5 & He)
            & (r7 & Hr7 & Hh)).
    unfold _validate.
    rewrite length_take, Nat.min_l by exact Hlen.
    destruct (six_cells_all _ Hsix) as [us Hus].
    rewrite (bind_Ok _ _ tt eq_refl), (bind_Ok _ _ us Hus).
    rewrite (index_rows sheet 4 r4 Hr4), (index_rows sheet 5 r5 Hr5),
      (index_rows sheet 7 r7 Hr7) by lia.
    rewrite (bind_Ok _ _ (values r4) eq_refl).
    rewrite (bind_Ok (index (values r4) 0) _ (PStr s))
      by (apply index_Ok; exact Hc).
    rewrite (bind_Ok _ _ (Some m))
      by (unfold re_match_val; rewrite Hm; reflexivity).
    rewrite Hl, He, Hh. reflexivity.
Qed.

Lemma validate_not_text (sheet : Worksheet) :
  account_cell_not_text sheet -> validate sheet = Raise TypeError.
Proof.
  intros (Hlen & Hsix & row & c & Hrow & Hc & Hno).
  unfold validate, _validate.
  rewrite length_take, Nat.min_l by exact Hlen.
  destruct (six_cells_all _ Hsix) as [us Hus].
  rewrite (bind_Ok _ _ tt eq_refl), (bind_Ok _ _ us Hus).
  rewrite (index_rows sheet 4 row Hrow) by lia.
  destruct row as [|c' row']; [discriminate|]. injection Hc as ->.
  simpl. destruct (value c) eqn:Hv; try reflexivity.
  exfalso. exact (Hno _ eq_refl).
Qed.

(** X2: [validate] has three outcomes only: it accepts, or raises the
    converted [ValueError], or lets a [TypeError] through; it never raises
    an [IndexError] or a bare [AssertionError].  The [TypeError] comes
    exactly when the first eight rows have six cells each and the first
    cell of row 4 holds something that is no text (nothing, a number, a
    date, a truth value). *)
Theorem validate_three_outcomes (sheet : Worksheet) :
  (validate sheet = Ok tt \/ validate sheet = Raise ValueError
   \/ validate sheet = Raise TypeError)
  /\ (validate sheet = Raise TypeError <-> account_cell_not_text sheet).
Proof.
  destruct (validate_outcome sheet) as [Hv | [Hv | (Hv & Hlen & Hsix & Hcell)]].
  - split; [auto|]. split; [rewrite Hv; discriminate|].
    intros Hn%validate_not_text. congruence.
  - split; [auto|]. split; [rewrite Hv; discriminate|].
    intros Hn%validate_not_text. congruence.
  - split; [auto|]. split; [|intros _; exact Hv].
    intros _. split; [exact Hlen|]. split; [exact Hsix|exact Hcell].
Qed.
End ValidatorExact.

(** ** The header extractor alone, and the constructor *)

Section ConstructorFacts.
Context `{UnicodeDB}.

(** X3: what [parse_statement] does on any worksheet, validated or not.
    With fewer than eight rows its own assertion fails (and nothing
    converts that); otherwise only row 4 counts: an empty row 4 gives an
    [IndexError], a first cell that is no text or that the account pattern
    does not match gives a [TypeError], and a first cell the pattern
    matches gives the statement with group 1 as account id.  The widths of
    the rows and the other rows are not looked at. *)
Theorem parse_statement_outcomes (sheet : Worksheet) :
  ((length sheet < 8)%nat -> parse_statement sheet = Raise AssertionError)
  /\ (forall r4, (8 <= length sheet)%nat -> sheet !! 4%nat = Some r4 ->
        match values r4 with
        | [] => parse_statement sheet = Raise IndexError
        | PStr s :: _ =>
            match re_match account_re s with
            | Some m =>
                parse_statement sheet
                = Ok {| account_id := group m 1; bank_id := py "SEB";
                        currency := py "SEK" |}
            | None => parse_statement sheet = Raise TypeError
            end
        | _ :: _ => parse_statement sheet = Raise TypeError
        end).
Proof.
  unfold parse_statement. split.
  - intros Hlen. rewrite length_fmap, length_take, Nat.min_r by lia.
    destruct (Nat.eqb_spec (length sheet) 8) as [Heq|_]; [lia|reflexivity].
  - intros r4 Hlen Hr4. rewrite length_rows by exact Hlen.
    rewrite (bind_Ok _ _ tt eq_refl).
    rewrite (index_rows sheet 4 r4 Hr4) by lia.
    rewrite (bind_Ok _ _ (values r4) eq_refl).
    destruct (values r4) as [|v vs]; [reflexivity|].
    rewrite index_0, (bind_Ok _ _ v eq_refl).
    destruct v as [|s| | | |]; try reflexivity.
    simpl. destruct (re_match account_re s); reflexivity.
Qed.

Lemma parse_statement_after_validate (sheet : Worksheet) :
  validate sheet = Ok tt -> exists st, parse_statement sheet = Ok st.
Proof.
  intros Hv%validate_Ok.
  apply _validate_Ok_inv in Hv
    as (Hlen & _ & r4 & _ & _ & s & m & Hr4 & Hcell & Hm & _).
  unfold parse_statement.
  rewrite length_rows by exact Hlen.
  rewrite (bind_Ok _ _ tt eq_refl).
  rewrite (index_rows sheet 4 r4 Hr4) by lia.
  rewrite (bind_Ok _ _ (values r4) eq_refl).
  rewrite (bind_Ok (index (values r4) 0) _ (PStr s))
    by (apply index_Ok; exact Hcell).
  simpl. rewrite Hm. eauto.
Qed.

(** X4: the constructor fails exactly as [validate] fails, with the same
    exception: once the worksheet is accepted, [parse_statement] cannot
    fail any more.  And it builds a parser exactly for an accepted
    worksheet: the parser keeps the workbook and the two options as given,
    and its statement is the one [parse_statement] reads. *)
Theorem new_parser_outcomes (fin : Worksheet) (loc b : PyVal) :
  (forall e, new_parser fin loc b = Raise e <-> validate fin = Raise e)
  /\ (forall self, new_parser fin loc b = Ok self
        <-> validate fin = Ok tt
            /\ exists st, parse_statement fin = Ok st
                 /\ self = {| locale := loc; brief := b; workbook := fin;
                              statement := st |}).
Proof.
  unfold new_parser.
  destruct (validate fin) as [[]|e0] eqn:Hv.
  - destruct (parse_statement_after_validate fin Hv) as [st Hst].
    rewrite Hst. simpl. split.
    + intros e. split; discriminate.
    + intros self. split.
      * intros [= <-]. split; [reflexivity|]. exists st. auto.
      * intros (_ & st' & [= <-] & ->). reflexivity.
  - simpl. split.
    + intros e. split; intros [= ->]; reflexivity.
    + intros self. split; [discriminate|]. intros [Hok _]. discriminate.
Qed.
End ConstructorFacts.

(** ** More on the record parser *)

Lemma lookup_first_five {A} (row : list A) v0 v1 v2 v3 v4 :
  take 5 row !! 0%nat = Some v0 -> take 5 row !! 1%nat = Some v1 ->
  take 5 row !! 2%nat = Some v2 -> take 5 row !! 3%nat = Some v3 ->
  take 5 row !! 4%nat = Some v4 ->
  exists rest, row = v0 :: v1 :: v2 :: v3 :: v4 :: rest.
Proof.
  destruct row as [|a0 [|a1 [|a2 [|a3 [|a4 rest]]]]]; simpl;
    try discriminate.
  intros [= ->] [= ->] [= ->] [= ->] [= ->]. eauto.
Qed.

Section RecordExact.
Context `{UnicodeDB} `{OfxLib}.

(** What a returned line tells about the row, and what the line holds *)
Lemma parse_record_Ok_inv brief row line :
  parse_record brief row = Ok line ->
  exists v0 v1 v2 text v4 rest d0 d1 memo' du,
    row = v0 :: v1 :: v2 :: PStr text :: v4 :: rest
    /\ parse_datetime v0 = Ok d0 /\ parse_datetime v1 = Ok d1
    /\ match re_match memo_re text with
       | Some m =>
           exists d, strptime (group m 2) ymd_format = Ok d
                     /\ du = Some d
                     /\ memo' = (if truthy brief then group m 1 else PStr text)
       | None => du = None /\ memo' = PStr text
       end
    /\ line = set_id
                (generate_transaction_id
                   {| id := None; date := Some d0; memo := memo';
                      amount := v4; refnum := v2; date_user := du |})
                {| id := None; date := Some d0; memo := memo';
                   amount := v4; refnum := v2; date_user := du |}.
Proof.
  unfold parse_record. intros Hp.
  apply bind_Ok_inv in Hp as (v0 & Hi0%index_Ok & Hp).
  apply bind_Ok_inv in Hp as (d0 & Hd0 & Hp).
  apply bind_Ok_inv in Hp as (v1 & Hi1%index_Ok & Hp).
  apply bind_Ok_inv in Hp as (d1 & Hd1 & Hp).
  apply bind_Ok_inv in Hp as (v2 & Hi2%index_Ok & Hp).
  apply bind_Ok_inv in Hp as (v3 & Hi3%index_Ok & Hp).
  apply bind_Ok_inv in Hp as (v4 & Hi4%index_Ok & Hp).
  apply bind_Ok_inv in Hp as (m & Hm & Hp).
  apply bind_Ok_inv in Hp as (l & Hl & [= <-]).
  destruct (lookup_first_five _ _ _ _ _ _ Hi0 Hi1 Hi2 Hi3 Hi4) as [rest ->].
  simpl in Hm. apply re_match_val_Ok in Hm as (text & -> & ->).
  destruct (re_match memo_re text) as [m|] eqn:Hre.
  - apply bind_Ok_inv in Hl as (d & Hd & [= <-]).
    exists v0, v1, v2, text, v4, rest, d0, d1,
      (if truthy brief then group m 1 else PStr text), (Some d).
    rewrite Hre. repeat split; try assumption.
    + exists d. auto.
    + destruct (truthy brief); reflexivity.
  - injection Hl as <-.
    exists v0, v1, v2, text, v4, rest, d0, d1, (PStr text), None.
    rewrite Hre. repeat split; assumption.
Qed.

(** X5: what a line that [parse_record] returns tells.  The row then has
    at least five values, the first two parse as dates, the fourth is text
    and, if the memo pattern matches that text, group 2 is a calendar date.
    The line has the first date, the third and fifth values as they are,
    the memo (group 1 in brief mode on a match), the date of group 2 on a
    match and none otherwise, and as id the digest of the line so filled,
    taken after the memo was cut.  Values after the fifth play no part. *)
Theorem parse_record_returned_line brief row line :
  parse_record brief row = Ok line ->
  exists v0 v1 v2 text v4 rest d0 d1 memo' du,
    row = v0 :: v1 :: v2 :: PStr text :: v4 :: rest
    /\ parse_datetime v0 = Ok d0 /\ parse_datetime v1 = Ok d1
    /\ match re_match memo_re text with
       | Some m =>
           exists d, strptime (group m 2) ymd_format = Ok d
                     /\ du = Some d
                     /\ memo' = (if truthy brief then group m 1 else PStr text)
       | None => du = None /\ memo' = PStr text
       end
    /\ line = set_id
                (generate_transaction_id
                   {| id := None; date := Some d0; memo := memo';
                      amount := v4; refnum := v2; date_user := du |})
                {| id := None; date := Some d0; memo := memo';
                   amount := v4; refnum := v2; date_user := du |}.
Proof. exact (parse_record_Ok_inv brief row line). Qed.

(** X6: rows that cannot make a record although their dates are fine.  A
    row of fewer than five values whose dates (as far as present) parse
    raises an [IndexError]; a row of five or more values whose two dates
    parse and whose fourth value is no text (an empty description cell, a
    number) raises a [TypeError] from [re.match]. *)
Theorem parse_record_row_errors brief row :
  ((length row < 5)%nat ->
   (forall v, v ∈ take 2 row -> exists d, parse_datetime v = Ok d) ->
   parse_record brief row = Raise IndexError)
  /\ (forall v0 v1 v2 v3 v4 rest d0 d1,
        row = v0 :: v1 :: v2 :: v3 :: v4 :: rest ->
        parse_datetime v0 = Ok d0 -> parse_datetime v1 = Ok d1 ->
        (forall s, v3 <> PStr s) ->
        parse_record brief row = Raise TypeError).
Proof.
  split.
  - intros Hlen Hdates. unfold parse_record.
    destruct row as [|v0 [|v1 row']]; [reflexivity| |].
    + destruct (Hdates v0) as [d0 Hd0]; [left|].
      change (take 5 [v0]) with [v0].
      rewrite index_0, (bind_Ok _ _ v0 eq_refl), (bind_Ok _ _ d0 Hd0).
      reflexivity.
    + destruct (Hdates v0) as [d0 Hd0]; [left|].
      destruct (Hdates v1) as [d1 Hd1]; [right; left|].
      change (take 5 (v0 :: v1 :: row')) with (v0 :: v1 :: take 3 row').
      rewrite !index_S, !index_0.
      rewrite (bind_Ok _ _ v0 eq_refl), (bind_Ok _ _ d0 Hd0).
      rewrite (bind_Ok _ _ v1 eq_refl), (bind_Ok _ _ d1 Hd1).
      destruct row' as [|v2 [|v3 [|v4 rest]]]; try reflexivity.
      simpl in Hlen. lia.
  - intros v0 v1 v2 v3 v4 rest d0 d1 -> Hd0 Hd1 Hno. unfold parse_record.
    change (take 5 (v0 :: v1 :: v2 :: v3 :: v4 :: rest))
      with [v0; v1; v2; v3; v4].
    rewrite !index_S, !index_0.
    rewrite (bind_Ok _ _ v0 eq_refl), (bind_Ok _ _ d0 Hd0).
    rewrite (bind_Ok _ _ v1 eq_refl), (bind_Ok _ _ d1 Hd1).
    destruct v3 as [|s| | | |]; try reflexivity.
    exfalso. exact (Hno s eq_refl).
Qed.
End RecordExact.

(** ** Footer rows *)

Lemma starts_with_Datum {A} (k : @cont A) (s : str) g a :
  run (lits "Datum: ") k 0%nat s g = Some a ->
  exists s', s = py "Datum: " ++ s'.
Proof.
  intros Hm.
  change (run (lits "Datum: ") k)
    with (one (N.eqb (chr "D")) (one (N.eqb (chr "a")) (one (N.eqb (chr "t"))
           (one (N.eqb (chr "u")) (one (N.eqb (chr "m")) (one (N.eqb (chr ":"))
           (one (N.eqb (chr " ")) k))))))) in Hm.
  apply one_inv in Hm as (c0 & s0 & -> & <-%N.eqb_eq & Hm).
  apply one_inv in Hm as (c1 & s1 & -> & <-%N.eqb_eq & Hm).
  apply one_inv in Hm as (c2 & s2 & -> & <-%N.eqb_eq & Hm).
  apply one_inv in Hm as (c3 & s3 & -> & <-%N.eqb_eq & Hm).
  apply one_inv in Hm as (c4 & s4 & -> & <-%N.eqb_eq & Hm).
  apply one_inv in Hm as (c5 & s5 & -> & <-%N.eqb_eq & Hm).
  apply one_inv in Hm as (c6 & s6 & -> & <-%N.eqb_eq & Hm).
  exists s6. reflexivity.
Qed.

Section FooterFacts.
Context `{UnicodeDB} `{OfxLib}.

(** A text that does not start with a decimal digit is no date. *)
Lemma parse_datetime_no_digit c s :
  is_digit c = false -> parse_datetime (PStr (c :: s)) = Raise ValueError.
Proof.
  intros Hc. unfold parse_datetime, strptime, re_match. simpl.
  rewrite Hc. reflexivity.
Qed.

Lemma is_footer_text row :
  is_footer row = Ok true ->
  exists s rest, row = PStr (py "Datum: " ++ s) :: rest.
Proof.
  unfold is_footer, footer_regexps, is_footer_from.
  destruct row as [|v rest]; [discriminate|].
  rewrite index_0, !(bind_Ok _ _ v eq_refl).
  destruct v as [|s| | | |]; try discriminate.
  unfold re_match_val. rewrite !(bind_Ok (Ok _) _ _ eq_refl).
  destruct (re_match (Cat Bol (lits "Datum:  -")) s) as [m|] eqn:H1.
  - intros _. unfold re_match in H1.
    change (run (Cat Bol (lits "Datum:  -")) ?k 0%nat s [])
      with (run (lits "Datum: ")
              (one (N.eqb (chr " ")) (one (N.eqb (chr "-")) k)) 0%nat s [])
      in H1.
    apply starts_with_Datum in H1 as [s' ->]. eauto.
  - rewrite bool_decide_eq_false_2 by (intros [? [=]]).
    match goal with
    | |- context [re_match ?r s] => destruct (re_match r s) as [m|] eqn:H2
    end.
    + intros _. unfold re_match in H2.
      match type of H2 with
      | run _ ?k0 _ _ _ = _ =>
          change (run (lits "Datum: ")
                    (run (cats [Group 1 iso_date_re; lits " - ";
                                Group 2 iso_date_re; Eol]) k0) 0%nat s []
                  = Some m) in H2
      end.
      apply starts_with_Datum in H2 as [s' ->]. eauto.
    + rewrite bool_decide_eq_false_2 by (intros [? [=]]). discriminate.
Qed.

(** X7: a row that [is_footer] recognises (its first cell is text that one
    of the two footer patterns matches, so text starting with "Datum: ")
    cannot be parsed as a record: [parse_record] raises the [ValueError] of
    the date parser on it, in either mode.  Nothing in the module calls
    [is_footer], so such a row among the data rows ends the statement. *)
Theorem footer_row_fails row :
  is_footer row = Ok true ->
  (exists s rest, row = PStr (py "Datum: " ++ s) :: rest)
  /\ forall brief, parse_record brief row = Raise ValueError.
Proof.
  intros Hf. pose proof (is_footer_text row Hf) as (s & rest & ->).
  split; [eauto|]. intros brief. unfold parse_record.
  change (take 5 (PStr (py "Datum: " ++ s) :: rest))
    with (PStr (py "Datum: " ++ s) :: take 4 rest).
  rewrite index_0, (bind_Ok _ _ _ eq_refl).
  change (py "Datum: " ++ s) with (chr "D" :: (py "atum: " ++ s)).
  rewrite parse_datetime_no_digit by reflexivity. reflexivity.
Qed.

(** X8: [is_footer] itself fails on a row without cells ([IndexError]) and
    on a row whose first cell holds no text ([TypeError]), and answers
    false on every row whose first cell is text not starting with
    "Datum: ". *)
Theorem is_footer_edges row :
  (row = [] -> is_footer row = Raise IndexError)
  /\ (forall v rest, row = v :: rest -> (forall s, v <> PStr s) ->
        is_footer row = Raise TypeError)
  /\ (forall s rest, row = PStr s :: rest ->
        (forall s', s <> py "Datum: " ++ s') -> is_footer row = Ok false).
Proof.
  split; [intros ->; reflexivity|]. split.
  - intros v rest -> Hno. unfold is_footer, footer_regexps, is_footer_from.
    rewrite index_0, (bind_Ok _ _ v eq_refl).
    destruct v as [|s| | | |]; try reflexivity.
    exfalso. exact (Hno s eq_refl).
  - intros s rest -> Hno.
    destruct (is_footer (PStr s :: rest)) as [[|]|e] eqn:Hf; [|reflexivity|].
    + apply is_footer_text in Hf as (s' & rest' & [= -> _]).
      exfalso. exact (Hno s' eq_refl).
    + exfalso. revert Hf. unfold is_footer, footer_regexps, is_footer_from.
      rewrite index_0, !(bind_Ok _ _ (PStr s) eq_refl).
      unfold re_match_val. rewrite !(bind_Ok (Ok _) _ _ eq_refl).
      repeat match goal with
             | |- context [bool_decide ?P] => destruct (bool_decide P)
             end; discriminate.
Qed.
End FooterFacts.

(** ** The two patterns, exactly *)

Section GreedyFacts.
Context {A : Type}.
Implicit Types (k : @cont A) (p : char -> bool).

Lemma greedy_at_least p k i s g r :
  k i s g = Some r -> exists r', greedy p k i s g = Some r'.
Proof.
  intros Hk. destruct s as [|c s']; simpl; [eauto|].
  destruct (p c); [|eauto].
  destruct (greedy p k (S i) s' g); eauto.
Qed.

(** Backtracking: a run of the class followed by something the rest of the
    pattern accepts is matched, maybe by a longer run. *)
Lemma greedy_some p k i a b g r :
  forallb p a = true -> k (i + length a)%nat b g = Some r ->
  exists r', greedy p k i (a ++ b) g = Some r'.
Proof.
  revert i. induction a as [|c a IH]; intros i; simpl.
  - rewrite Nat.add_0_r. intros _. apply greedy_at_least.
  - intros [Hc Ha]%andb_prop Hr. rewrite Hc.
    destruct (IH (S i) Ha) as [r' ->]; [|eauto].
    replace (S i + length a)%nat with (i + S (length a))%nat by lia. exact Hr.
Qed.
End GreedyFacts.

(** A text is cut in one way only at the first occurrence of a character. *)
Lemma cut_at_first (x : char) (a a' b b' : str) :
  x ∉ a -> x ∉ a' -> a ++ x :: b = a' ++ x :: b' -> a = a' /\ b = b'.
Proof.
  revert a'. induction a as [|c a IH]; intros [|c' a'] Ha Ha'; simpl.
  - intros [= <-]. auto.
  - intros [= <- _]. exfalso. apply Ha'. left.
  - intros [= -> _]. exfalso. apply Ha. left.
  - intros [= <- Hrest].
    destruct (IH a') as [-> ->]; [| |exact Hrest|auto].
    + intros Hin. apply Ha. right. exact Hin.
    + intros Hin. apply Ha'. right. exact Hin.
Qed.

Lemma forallb_not_elem (p : char -> bool) (x : char) (l : str) :
  p x = false -> forallb p l = true -> x ∉ l.
Proof.
  intros Hx Hl Hin. rewrite forallb_forall in Hl.
  apply list_elem_of_In in Hin. rewrite (Hl x Hin) in Hx. discriminate.
Qed.

Section PatternsExact.
Context `{UnicodeDB}.

(** X9: the memo pattern matches a text exactly when the text is a part
    without line break, then a slash, then "YY-MM-DD", then the end of the
    text or one last line break; group 1 is then all of the first part and
    group 2 the date.  So a memo with a line break before its slash-date,
    or with anything else after it, is never given a [date_user]. *)
Theorem memo_re_match_iff (s : str) (m : Match) :
  re_match memo_re s = Some m
  <-> exists p d t,
        s = p ++ chr "/" :: d ++ t
        /\ forallb is_dot p = true /\ is_yymmdd d = true /\ at_eol t = true
        /\ m = {| m_end := length p + 9; m_groups := [(2%nat, d); (1%nat, p)] |}.
Proof.
  split; [apply memo_re_sound|].
  intros (p & d & t & -> & Hp & Hd & Ht & ->).
  apply memo_re_match; assumption.
Qed.

Lemma account_re_complete w sp g t :
  w <> [] -> forallb is_word w = true -> is_space sp = true ->
  g <> [] -> forallb is_digit_or_space g = true -> at_eol t = true ->
  exists m, re_match account_re (w ++ sp :: chr "(" :: g ++ chr ")" :: t) = Some m.
Proof.
  intros Hw Hwall Hsp Hg Hgall Ht.
  destruct w as [|c w']; [contradiction|].
  destruct g as [|c2 g']; [contradiction|].
  simpl in Hwall, Hgall.
  apply andb_prop in Hwall as [Hc Hw'], Hgall as [Hc2 Hg'].
  destruct (greedy_some is_digit_or_space
              (fun j s' g0 =>
                 run (Cat (Lit (chr ")")) Eol)
                   (fun i _ g1 => Some {| m_end := i; m_groups := g1 |}) j s'
                   ((1%nat, take (j - S (S (1 + length w')))
                              (c2 :: g' ++ chr ")" :: t)) :: g0))
              (S (S (S (1 + length w')))) g' (chr ")" :: t) []
              {| m_end := S (S (S (S (1 + length w'))) + length g');
                 m_groups :=
                   [(1%nat, take (S (S (S (1 + length w'))) + length g'
                                  - S (S (1 + length w')))
                              (c2 :: g' ++ chr ")" :: t))] |} Hg')
    as [r' Hr'].
  { simpl. apply at_eol_inv in Ht as [-> | ->]; reflexivity. }
  unfold re_match, account_re. simpl. rewrite Hc.
  eapply greedy_some; [exact Hw'|].
  simpl. rewrite Hsp. simpl. rewrite Hc2. exact Hr'.
Qed.

(** X10: the account pattern matches a text, with group 1 holding [g],
    exactly when the text is one word (a non-empty run of word characters),
    one white-space character, an opening parenthesis, [g] made of one or
    more digits and white-space characters, a closing parenthesis, and the
    end of the text or one last line break.  An account name of two words,
    or an account number with a dash or a letter, is refused. *)
Theorem account_re_match_iff (s g : str) :
  (exists m, re_match account_re s = Some m /\ group m 1 = PStr g)
  <-> exists w sp t,
        s = w ++ sp :: chr "(" :: g ++ chr ")" :: t
        /\ w <> [] /\ forallb is_word w = true /\ is_space sp = true
        /\ g <> [] /\ forallb is_digit_or_space g = true /\ at_eol t = true.
Proof.
  split.
  - intros (m & Hm & Hg).
    apply account_re_sound in Hm
      as (w & sp & g' & t & -> & Hw & Hwall & Hsp & Hg' & Hgall & Ht & Hgrp).
    rewrite Hgrp in Hg. injection Hg as ->.
    exists w, sp, t. repeat split; assumption.
  - intros (w & sp & t & -> & Hw & Hwall & Hsp & Hg & Hgall & Ht).
    destruct (account_re_complete w sp g t Hw Hwall Hsp Hg Hgall Ht) as [m Hm].
    exists m. split; [exact Hm|].
    destruct (account_re_sound _ m Hm)
      as (w2 & sp2 & g2 & t2 & Heq & _ & Hwall2 & Hsp2 & _ & Hgall2 & _ & ->).
    f_equal.
    assert (Hopen : forall (a : str) (x : char),
               forallb is_word a = true -> is_space x = true ->
               chr "(" ∉ a ++ [x]).
    { intros a x Ha Hx Hin. apply elem_of_app in Hin as [Hin | Hin].
      - revert Hin. apply (forallb_not_elem is_word); [reflexivity|exact Ha].
      - apply list_elem_of_singleton in Hin. subst x. discriminate Hx. }
    change (w ++ sp :: chr "(" :: g ++ chr ")" :: t)
      with (w ++ [sp] ++ chr "(" :: g ++ chr ")" :: t) in Heq.
    change (w2 ++ sp2 :: chr "(" :: g2 ++ chr ")" :: t2)
      with (w2 ++ [sp2] ++ chr "(" :: g2 ++ chr ")" :: t2) in Heq.
    rewrite !app_assoc in Heq.
    apply cut_at_first in Heq as [_ Heq]; [|apply Hopen; assumption..].
    apply cut_at_first in Heq as [Heq _];
      [congruence
      |apply (forallb_not_elem is_digit_or_space); [reflexivity|assumption]..].
Qed.
End PatternsExact.

(** ** Rows, values and the run over the records *)

Lemma mapM_lookup {A B} (f : A -> result B) l l' :
  mapM f l = Ok l' ->
  forall i x, l !! i = Some x -> exists y, l' !! i = Some y /\ f x = Ok y.
Proof.
  revert l'. induction l as [|a l IH]; intros l' Hm i x Hx; [discriminate|].
  simpl in Hm.
  apply bind_Ok_inv in Hm as (y & Hy & (k & Hk & [= <-])%bind_Ok_inv).
  destruct i as [|i]; simpl in *.
  - injection Hx as <-. eauto.
  - eauto.
Qed.

Lemma mapM_first_error {A B} (f : A -> result B) l e :
  mapM f l = Raise e ->
  exists i x, l !! i = Some x /\ f x = Raise e
    /\ forall j x', (j < i)%nat -> l !! j = Some x' -> exists y, f x' = Ok y.
Proof.
  induction l as [|a l IH]; [discriminate|]. simpl.
  destruct (f a) as [y|e0] eqn:Ha; simpl.
  - destruct (mapM f l) as [k|e1] eqn:Hl; [discriminate|].
    intros [= ->]. destruct (IH eq_refl) as (i & x & Hx & Hfx & Hbefore).
    exists (S i), x. repeat split; try assumption.
    intros [|j] x' Hj Hx'; simpl in Hx'.
    + injection Hx' as <-. eauto.
    + apply (Hbefore j); [lia|exact Hx'].
  - intros [= ->]. exists 0%nat, a. repeat split; try assumption.
    intros j x' Hj. lia.
Qed.

Lemma six_cells_values (rows : list (list Cell)) :
  mapM (fun row : list Cell => py_assert (length row =? 6)%nat) rows
  = mapM (fun vs : list PyVal => py_assert (length vs =? 6)%nat) (values <$> rows).
Proof.
  induction rows as [|r rows IH]; [reflexivity|].
  rewrite fmap_cons.
  change (mapM ?f (?a :: ?l)) with (y ← f a; k ← mapM f l; mret (y :: k)).
  cbv beta. rewrite IH.
  replace (length (values r)) with (length r)
    by (symmetry; apply length_fmap).
  reflexivity.
Qed.

Section PipelineFacts.
Context `{UnicodeDB} `{OfxLib}.


(** X12: only the values of the cells count, and each stage reads its own
    rows.  Two worksheets whose first eight rows hold the same values get
    the same answer from [validate] and from [parse_statement], whatever
    the styles of their cells and whatever comes after the eighth row; two
    parsers in the same mode whose worksheets hold the same values from
    the ninth row on give the same statement lines or the same exception. *)
Theorem only_values_count (sheet1 sheet2 : Worksheet) :
  (values <$> take 8 sheet1 = values <$> take 8 sheet2 ->
   validate sheet1 = validate sheet2
   /\ parse_statement sheet1 = parse_statement sheet2)
  /\ (forall self1 self2,
        workbook self1 = sheet1 -> workbook self2 = sheet2 ->
        brief self1 = brief self2 ->
        values <$> drop 8 sheet1 = values <$> drop 8 sheet2 ->
        parse_records self1 = parse_records self2).
Proof.
  split.
  - intros Hsame.
    assert (Hlen : length (take 8 sheet1) = length (take 8 sheet2)).
    { rewrite <- (length_fmap values (take 8 sheet1)), Hsame.
      apply length_fmap. }
    split.
    + unfold validate, _validate.
      rewrite !six_cells_values, Hlen, Hsame. reflexivity.
    + unfold parse_statement. rewrite Hsame. reflexivity.
  - intros self1 self2 <- <- Hb Hsame. unfold parse_records, split_records.
    rewrite Hb, Hsame. reflexivity.
Qed.
End PipelineFacts.

(** ** More on the plugin *)

Lemma has_key_None (d : gmap string PyVal) k :
  d !! k = None -> has_key d k = false.
Proof.
  intros Hk. apply bool_decide_eq_false_2. rewrite Hk. intros [? [=]].
Qed.

(** What [get_parser] hands to the constructor when the settings have no
    "locale" key *)
Lemma get_parser_kwargs_no_locale (settings : gmap string PyVal) :
  settings !! "locale" = None ->
  get_parser_kwargs settings
  = match settings !! "brief" with
    | Some v => b ← parse_bool v;
                Ok (<["brief" := PBool b]> {[ "locale" := PStr (py "sv_SE") ]})
    | None => Ok {[ "locale" := PStr (py "sv_SE") ]}
    end.
Proof.
  intros Hl. unfold get_parser_kwargs.
  destruct (decide (settings = ∅)) as [->|Hne].
  - rewrite bool_decide_eq_true_2 by reflexivity.
    rewrite lookup_empty. reflexivity.
  - rewrite bool_decide_eq_false_2 by exact Hne.
    rewrite (has_key_None settings "locale" Hl).
    rewrite (bind_Ok (Ok _) _ _ eq_refl).
    destruct (settings !! "brief") as [v|] eqn:Hb.
    + rewrite (has_key_Some settings "brief" v Hb),
        (dict_get_Some settings "brief" v Hb). reflexivity.
    + rewrite (has_key_None settings "brief" Hb). reflexivity.
Qed.

Section PluginExact.
Context `{UnicodeDB} `{OfxLib}.

(** X13: without a "locale" setting, [get_parser] builds the parser with
    the locale name "sv_SE" and with brief mode as the "brief" setting
    says, off when there is none; any other key of the settings is
    ignored.  A "brief" setting that is none of the six tokens raises a
    [ValueError] before the workbook is looked at, so whatever the
    workbook holds. *)
Theorem get_parser_without_locale (settings : gmap string PyVal) (fin : Worksheet) :
  settings !! "locale" = None ->
  get_parser settings fin
  = match settings !! "brief" with
    | Some v => b ← parse_bool v; new_parser fin (PStr (py "sv_SE")) (PBool b)
    | None => new_parser fin (PStr (py "sv_SE")) (PBool false)
    end.
Proof.
  intros Hl. unfold get_parser. rewrite (get_parser_kwargs_no_locale settings Hl).
  destruct (settings !! "brief") as [v|]; [|reflexivity].
  destruct (parse_bool v) as [b|e]; [|reflexivity].
  rewrite !(bind_Ok (Ok _) _ _ eq_refl).
  rewrite lookup_insert_ne by discriminate.
  rewrite lookup_singleton_eq, lookup_insert_eq. reflexivity.
Qed.

(** X14: a parser that [get_parser] returns always has a truth value as
    its brief option, true exactly when the settings hold a "brief" token
    that [parse_bool] reads as true; it keeps the workbook it was given,
    and that workbook is one [validate] accepts. *)
Theorem get_parser_brief_is_bool (settings : gmap string PyVal) (fin : Worksheet) self :
  get_parser settings fin = Ok self ->
  (exists b, brief self = PBool b
     /\ (b = true <-> exists v, settings !! "brief" = Some v
                                /\ parse_bool v = Ok true))
  /\ workbook self = fin /\ validate fin = Ok tt.
Proof.
  unfold get_parser. intros Hg.
  apply bind_Ok_inv in Hg as (kwargs & Hk & Hnew).
  unfold new_parser in Hnew.
  apply bind_Ok_inv in Hnew as ([] & Hv & Hnew).
  apply bind_Ok_inv in Hnew as (st & _ & [= <-]). simpl.
  split; [|auto].
  unfold get_parser_kwargs in Hk.
  destruct (bool_decide (settings = ∅)) eqn:Hemp.
  - apply bool_decide_eq_true in Hemp as ->. injection Hk as <-.
    exists false. split; [reflexivity|].
    split; [discriminate|]. intros (v & Hv' & _).
    rewrite lookup_empty in Hv'. discriminate.
  - apply bind_Ok_inv in Hk as (kw1 & Hkw1 & Hk).
    assert (Hnob : kw1 !! "brief" = None).
    { destruct (has_key settings "locale").
      - apply bind_Ok_inv in Hkw1 as (b1 & _ & [= <-]).
        rewrite lookup_insert_ne by discriminate. reflexivity.
      - injection Hkw1 as <-. reflexivity. }
    unfold has_key, dict_get in Hk.
    destruct (settings !! "brief") as [v|] eqn:Hb.
    + rewrite bool_decide_eq_true_2 in Hk by eauto. simpl in Hk.
      apply bind_Ok_inv in Hk as (b & Hpb & [= <-]).
      rewrite lookup_insert_eq. exists b. split; [reflexivity|].
      split.
      * intros ->. eauto.
      * intros (v' & [= <-] & Hv'). congruence.
    + rewrite bool_decide_eq_false_2 in Hk by (intros [? [=]]).
      injection Hk as <-. rewrite Hnob. exists false. split; [reflexivity|].
      split; [discriminate|]. intros (v & [=] & _).
Qed.
End PluginExact.

(** A group keeps what it holds while a pattern without that group goes
    on matching. *)
Lemma run_keeps_group (n : nat) (r : regex) (k : @cont Match) :
  forall i s g res,
    n ∉ group_numbers r ->
    (forall j s' g' res', k j s' g' = Some res' ->
                          capture (m_groups res') n = capture g' n) ->
    run r k i s g = Some res ->
    capture (m_groups res) n = capture g n.
Proof.
  revert k. induction r as [c|p|p|p|r1 IH1 r2 IH2|r1 IH1 r2 IH2|m r IH| |];
    intros k i s g res Hn Hk; simpl.
  - intros (c' & s' & _ & _ & Hr)%one_inv. eauto.
  - intros (c' & s' & _ & _ & Hr)%one_inv. eauto.
  - intros (j & _ & _ & Hr)%greedy_inv. eauto.
  - intros (c' & s' & _ & _ & (j & _ & _ & Hr)%greedy_inv)%one_inv. eauto.
  - simpl in Hn. rewrite elem_of_app in Hn.
    apply IH1; [tauto|]. intros j s' g' res'. apply IH2; [tauto|exact Hk].
  - simpl in Hn. rewrite elem_of_app in Hn.
    destruct (run r1 k i s g) as [x|] eqn:H1.
    + intros [= <-]. revert H1. apply IH1; [tauto|exact Hk].
    + apply IH2; [tauto|exact Hk].
  - simpl in Hn. rewrite elem_of_cons in Hn.
    apply IH; [tauto|]. intros j s' g' res' Hr.
    rewrite (Hk _ _ _ _ Hr). simpl.
    destruct (Nat.eqb_spec m n) as [->|_]; [tauto|reflexivity].
  - destruct (i =? 0)%nat; [eauto|discriminate].
  - destruct s as [|c [|c' s']]; [eauto| |discriminate].
    destruct (c =? NL)%N; [eauto|discriminate].
Qed.

(** ** Dates of the lines *)

Lemma make_date_Ok y m d dt :
  make_date y m d = Ok dt -> dt = mkdate y m d /\ calendar_date dt.
Proof.
  unfold make_date, calendar_date.
  destruct ((1 <=? y) && (y <=? 9999) && (1 <=? m) && (m <=? 12)
            && (1 <=? d) && (d <=? days_in_month y m)) eqn:Hb; [|discriminate].
  intros [= <-]. simpl.
  rewrite !andb_true_iff, !Z.leb_le in Hb. split; [reflexivity|lia].
Qed.

Lemma ascii_digit_value `{UnicodeDB} c :
  ascii_digit c = true ->
  decimal_value c = Some (Z.of_N c - 48) /\ 0 <= Z.of_N c - 48 <= 9.
Proof.
  unfold decimal_value. intros Hc. rewrite Hc.
  unfold ascii_digit, in_range in Hc.
  apply andb_prop in Hc as [Hlo Hhi]. apply N.leb_le in Hlo, Hhi.
  rewrite (proj2 (N.ltb_lt c 128)) by lia. split; [reflexivity|lia].
Qed.

Section DateFacts.
Context `{UnicodeDB} `{OfxLib}.

Lemma strptime_calendar v f d : strptime v f = Ok d -> calendar_date d.
Proof.
  unfold strptime. destruct v as [|s| | | |]; try discriminate.
  destruct (re_match (format_regex f) s) as [found|]; [|discriminate].
  destruct (length s =? m_end found)%nat; [|discriminate].
  intros Hd.
  apply bind_Ok_inv in Hd as (y & _ & Hd).
  apply bind_Ok_inv in Hd as (m & _ & Hd).
  apply bind_Ok_inv in Hd as (dd & _ & Hd).
  apply make_date_Ok in Hd as [_ Hd]. exact Hd.
Qed.

(** The year of a two-digit date: what stands before the first dash, put
    into 1969..2068. *)
Lemma strptime_two_digit_year a b rest d :
  ascii_digit a = true -> ascii_digit b = true ->
  strptime (PStr (a :: b :: chr "-" :: rest)) ymd_format = Ok d ->
  year d = full_year ymd_format (10 * (Z.of_N a - 48) + (Z.of_N b - 48)).
Proof.
  intros Ha Hb. unfold strptime, re_match.
  destruct (ascii_digit_value a Ha) as [Hva _].
  destruct (ascii_digit_value b Hb) as [Hvb _].
  assert (Hda : is_digit a = true)
    by (unfold is_digit; rewrite Hva; apply bool_decide_eq_true_2; eauto).
  assert (Hdb : is_digit b = true)
    by (unfold is_digit; rewrite Hvb; apply bool_decide_eq_true_2; eauto).
  change (run (format_regex ymd_format) ?k 0%nat (a :: b :: chr "-" :: rest) [])
    with (if is_digit a
          then (if is_digit b
                then run (cats [Lit (chr "-"); Group 2 re_m; Lit (chr "-");
                                Group 3 re_d])
                       (fun j s' g' => k j s' g') 2%nat (chr "-" :: rest)
                       [(1%nat, [a; b])]
                else None)
          else None).
  rewrite Hda, Hdb.
  match goal with
  | |- context [run ?r ?k ?i ?s ?g] => destruct (run r k i s g) as [found|] eqn:Hrun
  end; [|discriminate].
  assert (Hg1 : group found 1 = PStr [a; b]).
  { unfold group.
    match type of Hrun with
    | run ?r ?k ?i ?s ?g = _ =>
        assert (Hno : 1%nat ∉ group_numbers r)
          by (change (group_numbers r) with [2%nat; 3%nat];
              rewrite !elem_of_cons, elem_of_nil; intuition discriminate);
        rewrite (run_keeps_group 1 r k i s g found Hno
                   ltac:(intros j s' g' res' [= <-]; reflexivity) Hrun)
    end.
    reflexivity. }
  destruct (length (a :: b :: chr "-" :: rest) =? m_end found)%nat;
    [|discriminate].
  unfold group_int. rewrite Hg1.
  unfold py_int at 3.
  assert (Hblank : (a =? chr " ")%N = false).
  { apply N.eqb_neq. change (chr " ") with 32%N.
    unfold ascii_digit, in_range in Ha.
    apply andb_prop in Ha as [Hlo _]. apply N.leb_le in Hlo. lia. }
  rewrite Hblank.
  simpl digits_value. rewrite Hva, Hvb. simpl.
  intros Hd.
  apply bind_Ok_inv in Hd as (m & _ & Hd).
  apply bind_Ok_inv in Hd as (dd & _ & Hd).
  apply make_date_Ok in Hd as [-> _]. simpl. f_equal; lia.
Qed.

(** X15: the dates of a line that [parse_record] returns are dates of the
    calendar (a row dated 2015-02-30, or a memo ending in /14-13-01, makes
    no line), and the year of [date_user], read from two digits, lies
    between 1969 and 2068: 69 to 99 are taken in the past century, 00 to
    68 in this one. *)
Theorem parse_record_dates brief row line :
  parse_record brief row = Ok line ->
  (exists d, date line = Some d /\ calendar_date d)
  /\ (forall du, date_user line = Some du ->
        calendar_date du /\ 1969 <= year du <= 2068).
Proof.
  intros (v0 & v1 & v2 & text & v4 & rest & d0 & d1 & memo' & du & -> & Hd0
          & _ & Hm & ->)%parse_record_Ok_inv.
  simpl. split.
  - exists d0. split; [reflexivity|]. exact (strptime_calendar _ _ _ Hd0).
  - intros du' ->.
    destruct (re_match memo_re text) as [m|] eqn:Hre;
      [|destruct Hm as [[=] _]].
    destruct Hm as (d & Hd & [= ->] & _).
    split; [exact (strptime_calendar _ _ _ Hd)|].
    apply memo_re_sound in Hre as (p & dd & t & _ & _ & Hdd & _ & ->).
    change (group {| m_end := length p + 9;
                     m_groups := [(2%nat, dd); (1%nat, p)] |} 2)
      with (PStr dd) in Hd.
    apply is_yymmdd_inv in Hdd as (a & b & c & e & f & h & -> & Ha & Hb & _).
    rewrite (strptime_two_digit_year a b _ d Ha Hb Hd).
    destruct (ascii_digit_value a Ha) as [_ Hra].
    destruct (ascii_digit_value b Hb) as [_ Hrb].
    unfold full_year.
    destruct (Z.leb_spec (10 * (Z.of_N a - 48) + (Z.of_N b - 48)) 68); lia.
Qed.
End DateFacts.

(** ** The context manager by itself *)

Section ScopedFacts.
Context `{LocaleLib}.

(** X16: with nothing assumed of the locale functions and for any body of
    the [with] block, also one that changes the locale itself: when
    [getlocale] raises, nothing is set, the body does not run and the
    locale is untouched; otherwise the call that hands the saved locale
    back to [setlocale] is the last thing that happens, whether setting
    the locale or the body raised or not, and when that call raises, its
    exception is the outcome. *)
Theorem scoped_setlocale_restore_is_last {A} cat loc
    (body : PyVal -> Eff locale_state A) (l : locale_state) :
  (forall e, getlocale cat l = Raise e ->
             scoped_setlocale cat loc body l = (Raise e, l))
  /\ (forall orig, getlocale cat l = Ok orig ->
        exists r1 l1,
          (v ← setlocale cat (LocVal loc); body v) l = (r1, l1)
          /\ snd (scoped_setlocale cat loc body l)
             = snd (setlocale cat (LocSaved orig) l1)
          /\ fst (scoped_setlocale cat loc body l)
             = match fst (setlocale cat (LocSaved orig) l1) with
               | Ok _ => r1
               | Raise e => Raise e
               end).
Proof.
  unfold scoped_setlocale, reading, try_finally, mbind, Eff_bind. split.
  - intros e He. rewrite He. reflexivity.
  - intros orig Hget. rewrite Hget.
    destruct (let (r, s') := setlocale cat (LocVal loc) l in
              match r with
              | Ok a => body a s'
              | Raise e => (Raise e, s')
              end) as [r1 l1] eqn:Hbody.
    exists r1, l1. split; [reflexivity|].
    destruct (setlocale cat (LocSaved orig) l1) as [[name|e] l2]; auto.
Qed.
End ScopedFacts.


(** ** The run over the records *)

Lemma rows_with_values_elem (rows : list (list PyVal)) row :
  row ∈ rows_with_values rows <-> row ∈ rows /\ row <> [].
Proof.
  unfold rows_with_values. rewrite !list_elem_of_In, filter_In.
  destruct row; simpl; split; intros [Hin Hv]; split; auto; congruence.
Qed.

Lemma rows_with_values_length (rows : list (list PyVal)) :
  (length (rows_with_values rows) <= length rows)%nat.
Proof.
  induction rows as [|r rows IH]; simpl; [lia|].
  destruct (has_values r); simpl; lia.
Qed.

Lemma rows_with_values_all (rows : list (list PyVal)) :
  (forall row, row ∈ rows -> row <> []) -> rows_with_values rows = rows.
Proof.
  induction rows as [|r rows IH]; intros Hall; simpl; [reflexivity|].
  destruct r as [|v r].
  - exfalso. apply (Hall []); [left|reflexivity].
  - simpl. f_equal. apply IH. intros row Hrow. apply Hall. right. exact Hrow.
Qed.

Lemma mapM_some_error {A B} (f : A -> result B) l x e :
  x ∈ l -> f x = Raise e ->
  exists x' e', x' ∈ l /\ f x' = Raise e' /\ mapM f l = Raise e'.
Proof.
  intros Hx Hfx. destruct (mapM f l) as [l'|e'] eqn:Hm.
  - apply list_elem_of_lookup in Hx as [i Hi].
    destruct (mapM_lookup f l l' Hm i x Hi) as (y & _ & Hy). congruence.
  - destruct (mapM_first_error f l e' Hm) as (i & x' & Hi & Hfx' & _).
    exists x', e'. split; [|auto]. apply list_elem_of_lookup. eauto.
Qed.

Section LoopFacts.
Context `{UnicodeDB} `{OfxLib}.

(** The loop is a run of [parse_record] over the rows it does not pass
    over. *)
Lemma parse_loop_mapM brief rows :
  parse_loop brief rows = mapM (parse_record brief) (rows_with_values rows).
Proof.
  induction rows as [|r rows IH]; [reflexivity|]. simpl.
  destruct (has_values r); [|exact IH].
  change (mapM ?f (?a :: ?l)) with (y ← f a; k ← mapM f l; mret (y :: k)).
  rewrite IH. reflexivity.
Qed.

(** C7, as the program has it: for a worksheet the validator accepts,
    [split_records] yields the values of each row after the first eight,
    one raw row per worksheet row and in order.  The statement lines are as
    many as the yielded rows that have a value, which is the number of data
    rows when every data row has a cell and less when some have none: they
    are produced as soon as [parse_record] makes a line of each such row,
    and whenever they are produced; if it raises on one of them, the run
    raises (the exception of the first such row) and produces nothing. *)
Theorem lines_of_rows_with_values (sheet : Worksheet) :
  validate sheet = Ok tt ->
  length sheet = (8 + length (split_records sheet))%nat
  /\ (forall i, split_records sheet !! i = values <$> sheet !! (8 + i)%nat)
  /\ (forall self,
        workbook self = sheet ->
        (forall lines, parse_records self = Ok lines ->
           length lines = length (rows_with_values (split_records sheet))
           /\ (length lines <= length (drop 8 sheet))%nat)
        /\ ((forall row, row ∈ rows_with_values (split_records sheet) ->
                         exists line, parse_record (brief self) row = Ok line) ->
            exists lines, parse_records self = Ok lines)
        /\ (forall row e, row ∈ rows_with_values (split_records sheet) ->
              parse_record (brief self) row = Raise e ->
              exists row' e',
                row' ∈ rows_with_values (split_records sheet)
                /\ parse_record (brief self) row' = Raise e'
                /\ parse_records self = Raise e')
        /\ ((forall row, row ∈ drop 8 sheet -> row <> []) ->
            rows_with_values (split_records sheet) = split_records sheet)).
Proof.
  intros Hv%validate_Ok. apply _validate_Ok_inv in Hv as (Hlen & _).
  split; [|split].
  - unfold split_records. rewrite length_fmap, length_drop. lia.
  - intros i. unfold split_records.
    rewrite list_lookup_fmap, lookup_drop. reflexivity.
  - intros self <-. unfold parse_records. rewrite parse_loop_mapM.
    split; [|split; [|split]].
    + intros lines Hl%mapM_length. split; [exact Hl|].
      rewrite Hl.
      etransitivity; [apply rows_with_values_length|].
      unfold split_records. rewrite length_fmap. reflexivity.
    + intros Hall. apply mapM_Ok_all. exact Hall.
    + intros row e Hrow He. exact (mapM_some_error _ _ row e Hrow He).
    + intros Hcells. apply rows_with_values_all.
      intros row Hrow Hnil. unfold split_records in Hrow.
      apply list_elem_of_fmap in Hrow as (cells & Hvals & Hin).
      apply (Hcells cells Hin).
      destruct cells; [reflexivity|]. subst row. discriminate Hnil.
Qed.

Lemma parse_loop_nil brief rows :
  parse_loop brief rows = Ok [] <-> Forall (fun row => row = []) rows.
Proof.
  induction rows as [|r rows IH]; simpl.
  - split; [constructor|reflexivity].
  - rewrite Forall_cons. destruct r as [|v r]; simpl.
    + rewrite IH. tauto.
    + split; [|intros [[=] _]].
      destruct (parse_record brief (v :: r)) as [line|e]; [|discriminate].
      simpl. destruct (parse_loop brief rows); discriminate.
Qed.

(** X17: the run over the records gives no line at all, and no exception,
    exactly when no row after the eighth has a cell: when there is no such
    row, as in a worksheet of eight rows or fewer, or when every such row
    is without cells.  One row with a cell is enough for a line or for an
    exception. *)
Theorem no_lines_iff_no_cells (self : SebStatementParser) :
  parse_records self = Ok []
  <-> Forall (fun row : list Cell => row = []) (drop 8 (workbook self)).
Proof.
  unfold parse_records, split_records. rewrite parse_loop_nil, Forall_fmap.
  apply Forall_iff. intros row. simpl. unfold values.
  split; [apply fmap_nil_inv|intros ->; reflexivity].
Qed.
End LoopFacts.

(** ** [atof] on a host whose locale names do not come back *)

(** C8, on the code: on a host of Python 3.11 that has "C.utf8" and no
    "en_US.UTF-8", [atof] called with the locale "C" while the numeric
    locale is "C.utf8" does not put the locale back, whatever the text and
    whether it is a number or not: [getlocale] has saved the pair
    ("en_US", "UTF-8"), the [setlocale] of the [finally] clause raises on
    it, that exception is the outcome and the locale stays "C".  Started
    from "C", where the saved pair is (None, None), the same host gets its
    locale back. *)
Theorem atof_leaves_locale_changed (F : Type) (read_number : str -> str -> result F)
    (elsewhere_get : str -> result locale_pair)
    (elsewhere_set : locale_arg locale_pair -> str -> result PyVal * str)
    (string : str) :
  @atof (utf8_host F read_number elsewhere_get elsewhere_set)
    string (PStr (py "C")) (py "C.utf8")
  = (Raise LocaleError, py "C")
  /\ @atof (utf8_host F read_number elsewhere_get elsewhere_set)
       string (PStr (py "C.utf8")) (py "C")
     = (read_number string (py "C.utf8"), py "C").
Proof.
  unfold atof, scoped_setlocale, try_finally, reading, mbind, Eff_bind.
  split; simpl.
  - destruct (read_number string (py "C")); reflexivity.
  - destruct (read_number string (py "C.utf8")); reflexivity.
Qed.

(** * The properties at work *)

#[local] Existing Instance latin1_db.
#[local] Existing Instance memo_digest.


Example py_decodes_utf8 : py "Bokföringsdatum" !! 4%nat = Some 246%N.
Proof. reflexivity. Qed.

Example account_id_of_header_cell :
  parse_statement statement_sheet
  = Ok {| account_id := PStr (py "1234 567 890");
          bank_id := py "SEB"; currency := py "SEK" |}.
Proof. vm_compute. reflexivity. Qed.

Lemma parse_statement_of_accepted_witness :
  validate statement_sheet = Ok tt
  /\ exists row c s m g,
      statement_sheet !! 4%nat = Some row /\ row !! 0%nat = Some c
      /\ value c = PStr s
      /\ re_match account_re s = Some m /\ group m 1 = PStr g
      /\ g <> [] /\ forallb is_digit_or_space g = true
      /\ parse_statement statement_sheet
         = Ok {| account_id := PStr g; bank_id := py "SEB"; currency := py "SEK" |}.
Proof.
  split; [vm_compute; reflexivity|].
  apply (parse_statement_of_accepted statement_sheet).
  vm_compute. reflexivity.
Defined.

Lemma parse_record_embedded_date_witness :
  parse_datetime (PStr (py "2015-01-02")) = Ok (mkdate 2015 1 2)
  /\ parse_record (PBool true)
       (record_row (PStr (py "2015-01-02")) (py "WIRSTRÖMS PU/14-12-31"))
     = Ok {| id := Some (py "WIRSTRÖMS PU"); date := Some (mkdate 2015 1 2);
             memo := PStr (py "WIRSTRÖMS PU");
             amount := PFloat 13861903731185942528;
             refnum := PStr (py "5484381424");
             date_user := Some (mkdate 2014 12 31) |}
  /\ parse_record (PBool false)
       (record_row (PStr (py "2015-01-02")) (py "WIRSTRÖMS PU/14-12-31"))
     = Ok {| id := Some (py "WIRSTRÖMS PU/14-12-31");
             date := Some (mkdate 2015 1 2);
             memo := PStr (py "WIRSTRÖMS PU/14-12-31");
             amount := PFloat 13861903731185942528;
             refnum := PStr (py "5484381424");
             date_user := Some (mkdate 2014 12 31) |}
  /\ (forall brief,
        parse_record brief (record_row (PStr (py "2015-01-02")) (py "ICA SUPERMARKET"))
        = Ok {| id := Some (py "ICA SUPERMARKET"); date := Some (mkdate 2015 1 2);
                memo := PStr (py "ICA SUPERMARKET");
                amount := PFloat 13861903731185942528;
                refnum := PStr (py "5484381424");
                date_user := None |}).
Proof.
  assert (Hd : parse_datetime (PStr (py "2015-01-02")) = Ok (mkdate 2015 1 2))
    by (vm_compute; reflexivity).
  split; [exact Hd|].
  assert (Hpub : forall brief,
            parse_record brief
              (record_row (PStr (py "2015-01-02")) (py "WIRSTRÖMS PU/14-12-31"))
            = Ok (let line :=
                    {| id := None; date := Some (mkdate 2015 1 2);
                       memo := if truthy brief then PStr (py "WIRSTRÖMS PU")
                               else PStr (py "WIRSTRÖMS PU/14-12-31");
                       amount := PFloat 13861903731185942528;
                       refnum := PStr (py "5484381424");
                       date_user := Some (mkdate 2014 12 31) |} in
                  set_id (generate_transaction_id line) line)).
  { intros brief.
    destruct (parse_record_embedded_date brief
                (PStr (py "2015-01-02")) (PStr (py "2015-01-02"))
                (PStr (py "5484381424")) (py "WIRSTRÖMS PU/14-12-31")
                (PFloat 13861903731185942528) [PFloat 4650903399166902272]
                (mkdate 2015 1 2) (mkdate 2015 1 2) Hd Hd) as [Hmatch _].
    destruct (re_match memo_re (py "WIRSTRÖMS PU/14-12-31")) as [m|] eqn:Hm;
      [|vm_compute in Hm; discriminate Hm].
    destruct (Hmatch m eq_refl) as (clean & suffix & t & Hg1 & Hg2 & _ & _ & _ & Hp).
    vm_compute in Hm. injection Hm as <-.
    vm_compute in Hg1, Hg2. injection Hg1 as <-. injection Hg2 as <-.
    etransitivity; [exact Hp|]. reflexivity. }
  split; [rewrite (Hpub (PBool true)); reflexivity|].
  split; [rewrite (Hpub (PBool false)); reflexivity|].
  intros brief.
  destruct (parse_record_embedded_date brief
              (PStr (py "2015-01-02")) (PStr (py "2015-01-02"))
              (PStr (py "5484381424")) (py "ICA SUPERMARKET")
              (PFloat 13861903731185942528) [PFloat 4650903399166902272]
              (mkdate 2015 1 2) (mkdate 2015 1 2) Hd Hd) as [_ Hnone].
  etransitivity; [apply Hnone; vm_compute; reflexivity|]. reflexivity.
Defined.

Lemma parse_record_last_slash_date_witness :
  forallb is_dot (py "A/14-01-01") = true
  /\ is_yymmdd (py "14-12-31") = true
  /\ count_slash_dates (py "A/14-01-01/14-12-31") = 2%nat
  /\ parse_record (PBool true)
       (record_row (PStr (py "2015-01-02")) (py "A/14-01-01/14-12-31"))
     = Ok {| id := Some (py "A/14-01-01"); date := Some (mkdate 2015 1 2);
             memo := PStr (py "A/14-01-01");
             amount := PFloat 13861903731185942528;
             refnum := PStr (py "5484381424");
             date_user := Some (mkdate 2014 12 31) |}.
Proof.
  assert (Hd : parse_datetime (PStr (py "2015-01-02")) = Ok (mkdate 2015 1 2))
    by (vm_compute; reflexivity).
  assert (Hb : forallb is_dot (py "A/14-01-01") = true) by (vm_compute; reflexivity).
  assert (Hl : is_yymmdd (py "14-12-31") = true) by (vm_compute; reflexivity).
  destruct (parse_record_last_slash_date (PBool true)
              (PStr (py "2015-01-02")) (PStr (py "2015-01-02"))
              (PStr (py "5484381424")) (PFloat 13861903731185942528)
              [PFloat 4650903399166902272] (mkdate 2015 1 2) (mkdate 2015 1 2)
              (py "A/14-01-01") (py "14-12-31") [] Hd Hd Hb Hl eq_refl)
    as (m & _ & _ & _ & Hcount & Hp).
  split; [exact Hb|]. split; [exact Hl|].
  split; [etransitivity; [exact Hcount|]; vm_compute; reflexivity|].
  etransitivity; [exact Hp|]. vm_compute. reflexivity.
Defined.

(** C9 does not extend to a memo of two lines: it holds two slash-dates
    and ends with one, yet the pattern does not match it, no [date_user] is
    set and brief mode leaves the memo whole. *)
Lemma two_line_memo_has_no_date :
  count_slash_dates two_line_memo = 2%nat
  /\ two_line_memo = (py "A/14-01-01" ++ [NL; chr "B"]) ++ chr "/" :: py "14-12-31" ++ []
  /\ re_match memo_re two_line_memo = None
  /\ parse_record (PBool true) (record_row (PStr (py "2015-01-02")) two_line_memo)
     = Ok {| id := Some two_line_memo; date := Some (mkdate 2015 1 2);
             memo := PStr two_line_memo;
             amount := PFloat 13861903731185942528;
             refnum := PStr (py "5484381424");
             date_user := None |}.
Proof. repeat split; vm_compute; reflexivity. Qed.

Lemma parse_record_value_date_witness :
  parse_datetime (PStr (py "2015-02-30")) = Raise ValueError
  /\ parse_datetime PNone = Raise TypeError
  /\ parse_record (PBool false) (record_row (PStr (py "2015-02-30")) (py "ICA SUPERMARKET"))
     = Raise ValueError
  /\ parse_record (PBool false) (record_row PNone (py "ICA SUPERMARKET"))
     = Raise TypeError
  /\ parse_record (PBool false) (record_row (PStr (py "2015-01-03")) (py "ICA SUPERMARKET"))
     = parse_record (PBool false) (record_row (PStr (py "1999-12-31")) (py "ICA SUPERMARKET")).
Proof.
  assert (Hbad : parse_datetime (PStr (py "2015-02-30")) = Raise ValueError)
    by (vm_compute; reflexivity).
  assert (Hnone : parse_datetime PNone = Raise TypeError) by reflexivity.
  split; [exact Hbad|]. split; [exact Hnone|].
  split; [|split].
  - destruct (parse_record_value_date (PBool false)
                (record_row (PStr (py "2015-02-30")) (py "ICA SUPERMARKET")))
      as [Hfail _].
    destruct (Hfail (PStr (py "2015-02-30")) ValueError eq_refl Hbad)
      as (e' & -> & [-> | (v0 & Hv0 & He')]); [reflexivity|].
    injection Hv0 as <-. vm_compute in He'. discriminate He'.
  - destruct (parse_record_value_date (PBool false)
                (record_row PNone (py "ICA SUPERMARKET"))) as [Hfail _].
    destruct (Hfail PNone TypeError eq_refl Hnone)
      as (e' & -> & [-> | (v0 & Hv0 & He')]); [reflexivity|].
    injection Hv0 as <-. vm_compute in He'. discriminate He'.
  - destruct (parse_record_value_date (PBool false)
                (record_row PNone (py "ICA SUPERMARKET"))) as [_ Hsame].
    exact (Hsame (PStr (py "2015-01-03")) (PStr (py "1999-12-31"))
             (mkdate 2015 1 3) (mkdate 1999 12 31)
             ltac:(vm_compute; reflexivity) ltac:(vm_compute; reflexivity)).
Defined.

Example two_records_of_two_rows :
  (self ← get_parser ∅ statement_sheet; lines ← parse_records self; Ok (length lines))
  = Ok 2%nat.
Proof. vm_compute. reflexivity. Qed.


(** C3, on the code: a worksheet of the refused kind (text in the row that
    must be empty) whose account cell is absent does not get the converted
    error: the [TypeError] of [re.match] leaves [validate] as it is. *)
Theorem validate_shifted_sheet_TypeError :
  bad_layout shifted_sheet
  /\ _validate shifted_sheet = Raise TypeError
  /\ validate shifted_sheet = Raise TypeError.
Proof.
  split; [|split; vm_compute; reflexivity].
  right. right. left. exists account_row.
  split; [reflexivity|]. vm_compute. discriminate.
Qed.

Lemma validate_absent_account_cell_witness :
  (8 <= length no_account_sheet)%nat
  /\ Forall (fun row => length row = 6%nat) (take 8 no_account_sheet)
  /\ no_account_sheet !! 4%nat = Some blank_row
  /\ blank_row !! 0%nat = Some blank
  /\ value blank = PNone
  /\ _validate no_account_sheet = Raise TypeError
  /\ validate no_account_sheet = Raise TypeError.
Proof.
  assert (Hlen : (8 <= length no_account_sheet)%nat) by (vm_compute; lia).
  assert (Hsix : Forall (fun row => length row = 6%nat) (take 8 no_account_sheet))
    by (repeat constructor).
  do 5 (split; [first [exact Hlen | exact Hsix | reflexivity]|]).
  exact (validate_absent_account_cell no_account_sheet blank_row blank
           Hlen Hsix eq_refl eq_refl eq_refl).
Defined.


(** ** The further properties at work *)

Example footer_row_is_footer : is_footer footer_row = Ok true.
Proof. vm_compute. reflexivity. Qed.

Lemma footer_row_fails_witness :
  is_footer footer_row = Ok true
  /\ (exists s rest, footer_row = PStr (py "Datum: " ++ s) :: rest)
  /\ (forall brief, parse_record brief footer_row = Raise ValueError).
Proof.
  split; [vm_compute; reflexivity|].
  apply (footer_row_fails footer_row). vm_compute. reflexivity.
Defined.

Lemma parse_record_dates_witness :
  parse_record (PBool false)
    (record_row (PStr (py "2015-01-02")) (py "KORVKIOSK/99-12-31"))
  = Ok {| id := Some (py "KORVKIOSK/99-12-31"); date := Some (mkdate 2015 1 2);
          memo := PStr (py "KORVKIOSK/99-12-31");
          amount := PFloat 13861903731185942528;
          refnum := PStr (py "5484381424");
          date_user := Some (mkdate 1999 12 31) |}
  /\ calendar_date (mkdate 2015 1 2)
  /\ calendar_date (mkdate 1999 12 31) /\ 1969 <= 1999 <= 2068.
Proof.
  assert (Hp : parse_record (PBool false)
                 (record_row (PStr (py "2015-01-02")) (py "KORVKIOSK/99-12-31"))
               = Ok {| id := Some (py "KORVKIOSK/99-12-31");
                       date := Some (mkdate 2015 1 2);
                       memo := PStr (py "KORVKIOSK/99-12-31");
                       amount := PFloat 13861903731185942528;
                       refnum := PStr (py "5484381424");
                       date_user := Some (mkdate 1999 12 31) |})
    by (vm_compute; reflexivity).
  split; [exact Hp|].
  destruct (parse_record_dates _ _ _ Hp) as [(d & Hd & Hcal) Hdu].
  injection Hd as <-. split; [exact Hcal|].
  exact (Hdu (mkdate 1999 12 31) eq_refl).
Defined.

Lemma get_parser_without_locale_witness :
  ({[ "brief" := PStr (py "1"); "account" := PStr (py "x") ]}
     : gmap string PyVal) !! "locale" = None
  /\ get_parser {[ "brief" := PStr (py "1"); "account" := PStr (py "x") ]}
       statement_sheet
     = new_parser statement_sheet (PStr (py "sv_SE")) (PBool true)
  /\ (forall fin, get_parser {[ "brief" := PStr (py "yes") ]} fin
                  = Raise ValueError).
Proof.
  assert (H1 : ({[ "brief" := PStr (py "1"); "account" := PStr (py "x") ]}
                  : gmap string PyVal) !! "locale" = None)
    by (vm_compute; reflexivity).
  assert (H2 : ({[ "brief" := PStr (py "yes") ]} : gmap string PyVal) !! "locale"
               = None) by (vm_compute; reflexivity).
  split; [exact H1|]. split.
  - rewrite (get_parser_without_locale _ statement_sheet H1).
    vm_compute. reflexivity.
  - intros fin. rewrite (get_parser_without_locale _ fin H2).
    reflexivity.
Defined.

Lemma get_parser_brief_is_bool_witness :
  (exists self, get_parser {[ "brief" := PStr (py "true") ]} statement_sheet = Ok self
     /\ brief self = PBool true /\ workbook self = statement_sheet)
  /\ validate statement_sheet = Ok tt.
Proof.
  destruct (get_parser {[ "brief" := PStr (py "true") ]} statement_sheet)
    as [self|e] eqn:Hg; [|vm_compute in Hg; discriminate Hg].
  destruct (get_parser_brief_is_bool _ _ _ Hg) as ((b & Hb & Htrue) & Hw & Hv).
  split; [|exact Hv]. exists self. split; [reflexivity|]. split; [|exact Hw].
  rewrite Hb. f_equal. apply Htrue.
  exists (PStr (py "true")). split; reflexivity.
Defined.

Lemma parse_record_row_errors_witness :
  parse_record (PBool true) [] = Raise IndexError
  /\ parse_record (PBool true)
       [PStr (py "2015-01-02"); PStr (py "2015-01-02"); PStr (py "1")]
     = Raise IndexError
  /\ parse_record (PBool true)
       [PStr (py "2015-01-02"); PStr (py "2015-01-02"); PStr (py "1"); PNone;
        PFloat 0; PFloat 0]
     = Raise TypeError.
Proof.
  assert (Hd : parse_datetime (PStr (py "2015-01-02")) = Ok (mkdate 2015 1 2))
    by (vm_compute; reflexivity).
  split; [|split].
  - apply (parse_record_row_errors (PBool true) []); [simpl; lia|].
    intros v Hv. apply elem_of_nil in Hv. contradiction.
  - apply (parse_record_row_errors (PBool true)); [simpl; lia|].
    intros v Hv. simpl in Hv.
    rewrite !elem_of_cons, elem_of_nil in Hv.
    destruct Hv as [-> | [-> | []]]; eauto.
  - destruct (parse_record_row_errors (PBool true)
                [PStr (py "2015-01-02"); PStr (py "2015-01-02"); PStr (py "1");
                 PNone; PFloat 0; PFloat 0]) as [_ Hmemo].
    apply (Hmemo _ _ _ _ _ _ _ _ eq_refl Hd Hd). discriminate.
Defined.

Lemma only_values_count_witness :
  values <$> take 8 statement_sheet = values <$> take 8 restyled_sheet
  /\ validate restyled_sheet = Ok tt
  /\ parse_statement restyled_sheet = parse_statement statement_sheet.
Proof.
  assert (Hsame : values <$> take 8 statement_sheet
                  = values <$> take 8 restyled_sheet) by reflexivity.
  destruct (only_values_count statement_sheet restyled_sheet) as [Hhead _].
  destruct (Hhead Hsame) as [Hv Hs].
  split; [exact Hsame|]. split.
  - rewrite <- Hv. vm_compute. reflexivity.
  - symmetry. exact Hs.
Defined.


(** ** The run over the records, at work *)

Lemma lines_of_rows_with_values_witness :
  validate statement_sheet = Ok tt
  /\ length statement_sheet = (8 + length (split_records statement_sheet))%nat
  /\ (forall i, split_records statement_sheet !! i
                = values <$> statement_sheet !! (8 + i)%nat)
  /\ (forall self,
        workbook self = statement_sheet ->
        (forall lines, parse_records self = Ok lines ->
           length lines = length (rows_with_values (split_records statement_sheet))
           /\ (length lines <= length (drop 8 statement_sheet))%nat)
        /\ ((forall row, row ∈ rows_with_values (split_records statement_sheet) ->
                         exists line, parse_record (brief self) row = Ok line) ->
            exists lines, parse_records self = Ok lines)
        /\ (forall row e, row ∈ rows_with_values (split_records statement_sheet) ->
              parse_record (brief self) row = Raise e ->
              exists row' e',
                row' ∈ rows_with_values (split_records statement_sheet)
                /\ parse_record (brief self) row' = Raise e'
                /\ parse_records self = Raise e')
        /\ ((forall row, row ∈ drop 8 statement_sheet -> row <> []) ->
            rows_with_values (split_records statement_sheet)
            = split_records statement_sheet)).
Proof.
  split; [vm_compute; reflexivity|].
  apply (lines_of_rows_with_values statement_sheet).
  vm_compute. reflexivity.
Defined.

(** An accepted worksheet with three rows after the eighth, the second of
    them without cells: the splitter yields three raw rows, the run gives
    two lines. *)
Lemma row_without_cells_gives_no_line :
  validate gapped_sheet = Ok tt
  /\ length (drop 8 gapped_sheet) = 3%nat
  /\ length (split_records gapped_sheet) = 3%nat
  /\ (self ← get_parser ∅ gapped_sheet; lines ← parse_records self;
      Ok (length lines)) = Ok 2%nat.
Proof. repeat split; vm_compute; reflexivity. Qed.

Lemma parse_record_returned_line_witness :
  parse_record (PBool true)
    (record_row (PStr (py "2015-01-03")) (py "KORVKIOSK/99-12-31"))
  = Ok {| id := Some (py "KORVKIOSK"); date := Some (mkdate 2015 1 2);
          memo := PStr (py "KORVKIOSK");
          amount := PFloat 13861903731185942528;
          refnum := PStr (py "5484381424");
          date_user := Some (mkdate 1999 12 31) |}
  /\ exists v0 v1 v2 text v4 rest d0 d1 memo' du,
       record_row (PStr (py "2015-01-03")) (py "KORVKIOSK/99-12-31")
       = v0 :: v1 :: v2 :: PStr text :: v4 :: rest
       /\ parse_datetime v0 = Ok d0 /\ parse_datetime v1 = Ok d1
       /\ match re_match memo_re text with
          | Some m =>
              exists d, strptime (group m 2) ymd_format = Ok d
                        /\ du = Some d
                        /\ memo' = (if truthy (PBool true) then group m 1
                                    else PStr text)
          | None => du = None /\ memo' = PStr text
          end
       /\ {| id := Some (py "KORVKIOSK"); date := Some (mkdate 2015 1 2);
             memo := PStr (py "KORVKIOSK");
             amount := PFloat 13861903731185942528;
             refnum := PStr (py "5484381424");
             date_user := Some (mkdate 1999 12 31) |}
          = set_id
              (generate_transaction_id
                 {| id := None; date := Some d0; memo := memo';
                    amount := v4; refnum := v2; date_user := du |})
              {| id := None; date := Some d0; memo := memo';
                 amount := v4; refnum := v2; date_user := du |}.
Proof.
  split; [vm_compute; reflexivity|].
  apply (parse_record_returned_line (PBool true)).
  vm_compute. reflexivity.
Defined.

(** A worksheet whose rows after the eighth are all without cells gives no
    line and no exception; one record row is enough for a line. *)
Example rows_without_cells_give_nothing :
  (self ← get_parser ∅ (preamble account_row blank_row ++ [[]; []]);
   parse_records self) = Ok []
  /\ (self ← get_parser ∅ (preamble account_row blank_row ++ [[]; shop_row]);
      lines ← parse_records self; Ok (length lines)) = Ok 1%nat.
Proof. split; vm_compute; reflexivity. Qed.

(** The host at work: a number read under "C" from "C.utf8" is lost to the
    exception of the restore. *)
Example atof_on_utf8_host :
  @atof (utf8_host Z (fun _ _ => Ok 15%Z) (fun _ => Raise LocaleError)
           (fun _ l => (Raise LocaleError, l)))
    (py "1.5") (PStr (py "C")) (py "C.utf8")
  = (Raise LocaleError, py "C").
Proof. vm_compute. reflexivity. Qed.
